(** * The predicate and overlay dispatch layer of [jsts.geom.Geometry]

    A shallow embedding of [jsts.geom.Geometry] (the abstract base class of
    every geometry) and of the [jsts.geom.GeometryFactory] stub.

    JavaScript objects live in a store and are named by references; a
    method is a computation over that store which either completes
    normally with a value or abruptly with a thrown exception.  The
    algorithms the base class delegates to (RelateOp, the overlay
    operations, the rectangle evaluators, Envelope, IntersectionMatrix and
    the concrete geometry classes) are collaborators: they are taken as
    an interface, and a small set of test doubles instantiates it. *)

From stdpp Require Import base option list strings.
From Stdlib Require Import ZArith NArith Lia.

Open Scope string_scope.
Open Scope list_scope.
Open Scope Z_scope.

(** ** Values *)

(** A reference to an object in the store. *)
Abbreviation ref := nat (only parsing).

(** The classes an object can be an instance of: the base class of the
    source file and the concrete variants. *)
Inductive GeometryClass :=
| BaseGeometry
| Point
| MultiPoint
| LineString
| LinearRing
| MultiLineString
| Polygon
| MultiPolygon
| GeometryCollection.

#[global] Instance GeometryClass_eq_dec : EqDecision GeometryClass.
Proof. solve_decision. Defined.

(** What a [throw] carries.  [ReferenceError] and [TypeError] are raised
    by the language itself (an unresolvable identifier; calling something
    that is not a function, or reading a property of null); [Error] is
    [throw new Error(msg)]; [CollaboratorFailure] is anything raised
    inside an external algorithm (topology collapse, robustness
    failure). *)
Inductive Exception :=
| ReferenceError (identifier : string)
| TypeError (property : string)
| Error (message : string)
| CollaboratorFailure (what : string).

#[global] Instance Exception_eq_dec : EqDecision Exception.
Proof. solve_decision. Defined.

(** How the evaluation of an expression or call completes. *)
Inductive Completion (A : Type) :=
| Normal (value : A)
| Abrupt (thrown : Exception).
Arguments Normal {A} value.
Arguments Abrupt {A} thrown.

(** The operation tags of [OverlayOp]. *)
Inductive OverlayOpCode := INTERSECTION | UNION | DIFFERENCE | SYMDIFFERENCE.

(** A call that left the base class for an external algorithm. *)
Inductive Event :=
| Called_RelateOp_relate (a b : ref)
| Called_RectangleIntersects_intersects (rectangle b : ref)
| Called_RectangleContains_contains (rectangle b : ref)
| Called_SnapIfNeededOverlayOp_overlayOp (a b : ref) (opCode : OverlayOpCode)
| Called_UnaryUnionOp_union (a : ref).

#[global] Instance OverlayOpCode_eq_dec : EqDecision OverlayOpCode.
Proof. solve_decision. Defined.

#[global] Instance Event_eq_dec : EqDecision Event.
Proof. solve_decision. Defined.

(** The value types the base class only passes around. *)
Class Domain := {
  (** [jsts.geom.Envelope] *)
  Envelope : Type;
  (** [IntersectionMatrix], produced by [RelateOp.relate] *)
  IntersectionMatrix : Type;
  (** the internal data of a concrete variant (coordinates, components) *)
  Shape : Type;
  (** a [CoordinateSequenceComparator] *)
  Comparator : Type
}.

Section Store.
Context {D : Domain}.

(** An instance of [jsts.geom.Geometry] or of a variant.  [None] is the
    JavaScript [null] of the prototype's defaults (lines 102, 108, 114). *)
Record GeometryObj := {
  class_of : GeometryClass;
  factory : option ref;
  SRID : option Z;
  envelope : option Envelope;
  shape : option Shape
}.

(** An instance of [jsts.geom.GeometryFactory] (GeometryFactory.js, line 32). *)
Record FactoryObj := {
  factory_SRID : option Z
}.

Record State := {
  geometries : list GeometryObj;
  factories : list FactoryObj;
  journal : list Event
}.

(** ** Computations *)

Definition M (A : Type) : Type := State → Completion A * State.

Definition ret {A} (a : A) : M A := λ s, (Normal a, s).

Definition throw {A} (e : Exception) : M A := λ s, (Abrupt e, s).

Definition bind {A B} (m : M A) (k : A → M B) : M B :=
  λ s, match m s with
       | (Normal a, s') => k a s'
       | (Abrupt e, s') => (Abrupt e, s')
       end.

(** What a caller sees of a callee's completion under [f]. *)
Definition map_completion {A B} (f : A → B) (c : Completion A) : Completion B :=
  match c with
  | Normal a => Normal (f a)
  | Abrupt e => Abrupt e
  end.

End Store.

Declare Scope js_scope.
Delimit Scope js_scope with js.
Notation "'var' x ':=' m ';' k" := (bind m (λ x, k))
  (at level 10, x name, m at level 100, k at level 200,
   format "'[v' 'var'  x  ':='  m ';' '/' k ']'") : js_scope.
Notation "m ';;' k" := (bind m (λ _, k))
  (at level 100, k at level 200, right associativity) : js_scope.
Open Scope js_scope.

Section Primitives.
Context {D : Domain}.

(** Reads the object behind a reference.  A reference that names no
    object behaves as [undefined]: using it as a receiver is a TypeError. *)
Definition deref (g : ref) : M GeometryObj :=
  λ s, match geometries s !! g with
       | Some o => (Normal o, s)
       | None => (Abrupt (TypeError "undefined"), s)
       end.

Definition deref_factory (f : option ref) : M FactoryObj :=
  λ s, match f with
       | Some r =>
           match factories s !! r with
           | Some o => (Normal o, s)
           | None => (Abrupt (TypeError "undefined"), s)
           end
       | None => (Abrupt (TypeError "null"), s)
       end.

(** [new]: a fresh object, placed after every existing one. *)
Definition alloc (o : GeometryObj) : M ref :=
  λ s, (Normal (length (geometries s)),
        {| geometries := geometries s ++ [o];
           factories := factories s;
           journal := journal s |}).

(** An assignment to a property of the object behind [g]. *)
Definition update (g : ref) (f : GeometryObj → GeometryObj) : M unit :=
  λ s, match geometries s !! g with
       | Some o => (Normal (),
                    {| geometries := <[g := f o]> (geometries s);
                       factories := factories s;
                       journal := journal s |})
       | None => (Abrupt (TypeError "undefined"), s)
       end.

Definition with_factory (v : option ref) (o : GeometryObj) : GeometryObj :=
  {| class_of := class_of o; factory := v; SRID := SRID o;
     envelope := envelope o; shape := shape o |}.

Definition with_SRID (v : option Z) (o : GeometryObj) : GeometryObj :=
  {| class_of := class_of o; factory := factory o; SRID := v;
     envelope := envelope o; shape := shape o |}.

Definition with_envelope (v : option Envelope) (o : GeometryObj) : GeometryObj :=
  {| class_of := class_of o; factory := factory o; SRID := SRID o;
     envelope := v; shape := shape o |}.

(** Notes a call to an external algorithm. *)
Definition record (e : Event) : M unit :=
  λ s, (Normal (),
        {| geometries := geometries s;
           factories := factories s;
           journal := e :: journal s |}).

(** Lifts the completion of an external algorithm. *)
Definition complete {A} (c : Completion A) : M A := λ s, (c, s).

(** An identifier that is neither a parameter nor a local of the
    enclosing function resolves in the global scope.  The two source
    files declare no global variable at all (every statement assigns to
    a property of the [jsts] namespace), so such an identifier is
    unresolvable and its evaluation raises a ReferenceError. *)
Definition free_identifier {A} (x : string) : M A :=
  throw (ReferenceError x).

(** Calling a property that holds no function. *)
Definition not_a_function {A} (name : string) : M A :=
  throw (TypeError name).

End Primitives.

(** ** Collaborators *)

(** Everything the base class calls but does not define.  The concrete
    variants override the capabilities of the base class; the external
    algorithms are functions of their operands that may fail. *)
Class Collaborators {D : Domain} := {
  (** [Envelope.prototype.intersects], [contains], [covers] and the
      copy constructor [new jsts.geom.Envelope(env)] *)
  Envelope_intersects : Envelope → Envelope → bool;
  Envelope_contains : Envelope → Envelope → bool;
  Envelope_covers : Envelope → Envelope → bool;
  Envelope_copy : Envelope → Envelope;
  (** the named queries of an [IntersectionMatrix] *)
  isTouches : IntersectionMatrix → Z → Z → bool;
  isCrosses : IntersectionMatrix → Z → Z → bool;
  isOverlaps : IntersectionMatrix → Z → Z → bool;
  isIntersects : IntersectionMatrix → bool;
  isContains : IntersectionMatrix → bool;
  isCovers : IntersectionMatrix → bool;
  (** the overrides of the concrete variants *)
  variant_isEmpty : GeometryObj → bool;
  variant_getDimension : GeometryObj → Z;
  variant_computeEnvelopeInternal : GeometryObj → option Envelope;
  variant_isRectangle : GeometryObj → bool;
  variant_compareToSameClass :
    GeometryObj → GeometryObj → option Comparator → Z;
  variant_clone : ref → M ref;
  (** whether a variant other than GeometryCollection itself has
      [jsts.geom.GeometryCollection.prototype] on its prototype chain *)
  extends_GeometryCollection : GeometryClass → bool;
  (** the external algorithms *)
  RelateOp_relate : GeometryObj → GeometryObj → Completion IntersectionMatrix;
  RectangleIntersects_intersects : GeometryObj → GeometryObj → Completion bool;
  RectangleContains_contains : GeometryObj → GeometryObj → Completion bool;
  SnapIfNeededOverlayOp_overlayOp :
    GeometryObj → GeometryObj → OverlayOpCode → Completion GeometryObj;
  UnaryUnionOp_union : GeometryObj → Completion GeometryObj
}.

(** ** jsts.geom.GeometryFactory and the constructor of Geometry *)

Section Construction.
Context {D : Domain} {C : Collaborators}.

(** [jsts.geom.GeometryFactory.prototype.getSRID] (GeometryFactory.js,
    lines 39-41): [return this.SRID]. *)
Definition GeometryFactory_getSRID (this : option ref) : M (option Z) :=
  var f := deref_factory this;
  ret (factory_SRID f).

(** The constructor [jsts.geom.Geometry] (lines 93-96) run by [new] on a
    fresh instance of class [c] with internal data [sh]: the instance
    starts from the defaults of the prototype, then
    [this.factory = factory; this.SRID = factory.getSRID()]. *)
Definition Geometry_new (c : GeometryClass) (sh : option Shape)
    (f : option ref) : M ref :=
  var this := alloc {| class_of := c; factory := None; SRID := None;
                      envelope := None; shape := sh |};
  update this (with_factory f);;
  var srid := GeometryFactory_getSRID f;
  update this (with_SRID srid);;
  ret this.

(** The functions GeometryFactory.js assigns to
    [jsts.geom.GeometryFactory.prototype], with the line of each. *)
Definition GeometryFactory_prototype : list (string * N) :=
  [ ("getSRID", 39); ("createPoint", 52); ("createLineString", 66);
    ("createLinearRing", 80) ]%N.

(** The function a property of the factory prototype holds once the
    file has run. *)
Definition GeometryFactory_method_of (name : string) : option N :=
  fold_left (λ held a, if String.eqb a.1 name then Some a.2 else held)
    GeometryFactory_prototype None.

(** A call [factory.<name>(...)] on a factory object, given the
    embeddings of the functions of that name. *)
Definition GeometryFactory_invoke {A} (name : string)
    (bodies : list (N * M A)) : M A :=
  match GeometryFactory_method_of name with
  | Some line =>
      match find (λ b, N.eqb b.1 line) bodies with
      | Some b => b.2
      | None => not_a_function name
      end
  | None => not_a_function name
  end.

(** A call [factory.createGeometryCollection(geoms)], as made by
    [intersection] and [difference].  The receiver must be an object;
    GeometryFactory.js assigns no function to that property, so there
    is no body to run. *)
Definition GeometryFactory_createGeometryCollection (this : option ref)
    (geoms : option (list ref)) : M ref :=
  deref_factory this;;
  GeometryFactory_invoke "createGeometryCollection" [].

End Construction.

(** ** jsts.geom.Geometry *)

Module Geometry.
Section Methods.
Context {D : Domain} {C : Collaborators}.

(** *** The prototype

    Every [jsts.geom.Geometry.prototype.<name> = function ...] of the
    source file, in the order the file executes them, with the line of
    the function.  JavaScript has no overloading by arity: a later
    assignment to the same property replaces the earlier function. *)
Definition prototype : list (string * N) :=
  [ ("getGeometryType", 124); ("getSRID", 143); ("getFactory", 154);
    ("getUserData", 164); ("getNumGeometries", 175); ("getGeometryN", 188);
    ("setUserData", 205); ("getPrecisionModel", 216); ("getCoordinate", 229);
    ("getCoordinates", 249); ("getNumPoints", 261); ("isSimple", 288);
    ("isValid", 304); ("isEmpty", 317); ("distance", 333);
    ("isWithinDistance", 349); ("getArea", 365); ("getLength", 377);
    ("getCentroid", 390); ("getInteriorPoint", 423); ("getDimension", 453);
    ("getBoundary", 469); ("getBoundaryDimension", 481); ("getEnvelope", 499);
    ("getEnvelopeInternal", 512); ("disjoint", 541); ("touches", 568);
    ("intersects", 599); ("crosses", 654); ("within", 687);
    ("contains", 717); ("overlaps", 754); ("covers", 794);
    ("coveredBy", 835); ("relate", 867); ("relate", 883); ("equals", 908);
    ("buffer", 943); ("buffer", 976); ("buffer", 1022);
    ("convexHull", 1059); ("intersection", 1080); ("union", 1123);
    ("difference", 1155); ("symDifference", 1189); ("union", 1221);
    ("equalsExact", 1248); ("clone", 1261); ("normalize", 1281);
    ("compareTo", 1314); ("compareTo", 1364);
    ("checkNotGeometryCollection", 1392); ("isGeometryCollection", 1403);
    ("computeEnvelopeInternal", 1419); ("compareToSameClass", 1438);
    ("compareToSameClass", 1458); ("compare", 1478); ("equal", 1508) ]%N.

Definition assign (name : string) (held : option N) (a : string * N) : option N :=
  if String.eqb a.1 name then Some a.2 else held.

(** The function a property of the prototype holds once the file has run. *)
Definition method_of (name : string) : option N :=
  fold_left (assign name) prototype None.

Fixpoint body_at {A} (line : N) (bodies : list (N * M A)) : option (M A) :=
  match bodies with
  | [] => None
  | (l, b) :: rest => if N.eqb l line then Some b else body_at line rest
  end.

(** A call [this.<name>(...)] on the base class: runs the function the
    property holds, given the embeddings of the functions of that name. *)
Definition invoke {A} (name : string) (bodies : list (N * M A)) : M A :=
  match method_of name with
  | Some line =>
      match body_at line bodies with
      | Some b => b
      | None => not_a_function name
      end
  | None => not_a_function name
  end.

(** *** Capabilities the variants override *)

(** A call that the class of the receiver decides: the function of the
    base class, or the override of the receiver's variant. *)
Definition virtual {A} (this : ref) (base : M A)
    (override : GeometryObj → M A) : M A :=
  var o := deref this;
  match class_of o with
  | BaseGeometry => base
  | _ => override o
  end.

(** [isEmpty] (lines 317-319): [return true]. *)
Definition isEmpty (this : ref) : M bool :=
  virtual this (ret true) (λ o, ret (variant_isEmpty o)).

(** [getDimension] (lines 453-455): [return 0]. *)
Definition getDimension (this : ref) : M Z :=
  virtual this (ret 0) (λ o, ret (variant_getDimension o)).

(** [computeEnvelopeInternal] (lines 1419-1421): [return null]. *)
Definition computeEnvelopeInternal (this : ref) : M (option Envelope) :=
  virtual this (ret None) (λ o, ret (variant_computeEnvelopeInternal o)).

(** [isRectangle] is called by [intersects], [contains] and [covers]
    but the base class assigns no such property. *)
Definition isRectangle (this : ref) : M bool :=
  virtual this (invoke "isRectangle" []) (λ o, ret (variant_isRectangle o)).

(** Modelled from the spec: the fixed order of the variant kinds,
    Point < MultiPoint < LineString < LinearRing < MultiLineString <
    Polygon < MultiPolygon < GeometryCollection.  The base class, which
    the order does not list, has no sort index. *)
Definition class_sort_index (c : GeometryClass) : option Z :=
  match c with
  | BaseGeometry => None
  | Point => Some 0
  | MultiPoint => Some 1
  | LineString => Some 2
  | LinearRing => Some 3
  | MultiLineString => Some 4
  | Polygon => Some 5
  | MultiPolygon => Some 6
  | GeometryCollection => Some 7
  end.

(** [getClassSortIndex] is called by [compareTo] but the base class
    assigns no such property. *)
Definition getClassSortIndex (this : ref) : M Z :=
  virtual this (invoke "getClassSortIndex" [])
    (λ o, match class_sort_index (class_of o) with
          | Some i => ret i
          | None => not_a_function "getClassSortIndex"
          end).

(** [compareToSameClass] (lines 1438-1440 and 1458-1460): [return 0]. *)
Definition compareToSameClass (this o : ref) (comp : option Comparator) : M Z :=
  virtual this
    (invoke "compareToSameClass" [(1438%N, ret 0); (1458%N, ret 0)])
    (λ a, var b := deref o; ret (variant_compareToSameClass a b comp)).

(** *** Accessors *)

(** [getFactory] (lines 154-156): [return this.factory]. *)
Definition getFactory (this : ref) : M (option ref) :=
  var o := deref this;
  ret (factory o).

(** [getSRID] (lines 143-145): [return this.SRID]. *)
Definition getSRID (this : ref) : M (option Z) :=
  var o := deref this;
  ret (SRID o).

(** *** clone (lines 1261-1267)

    [var clone = new jsts.geom.Geometry(this.factory);
     if (clone.envelope !== null)
       clone.envelope = new jsts.geom.Envelope(clone.envelope);
     return clone]: the test reads the envelope of the new object. *)
Definition clone_1261 (this : ref) : M ref :=
  var o := deref this;
  var clone := Geometry_new BaseGeometry None (factory o);
  var c := deref clone;
  match envelope c with
  | Some e => update clone (with_envelope (Some (Envelope_copy e)))
  | None => ret ()
  end;;
  ret clone.

Definition clone (this : ref) : M ref :=
  virtual this (invoke "clone" [(1261%N, clone_1261 this)])
    (λ _, variant_clone this).

(** *** GeometryCollection guard *)

Definition is_GeometryCollection_class (c : GeometryClass) : bool :=
  match c with
  | GeometryCollection => true
  | BaseGeometry => false
  | _ => extends_GeometryCollection c
  end.

(** [g instanceof jsts.geom.GeometryCollection]; false on what is not an
    object. *)
Definition instanceof_GeometryCollection (g : ref) : M bool :=
  λ s, match geometries s !! g with
       | Some o => (Normal (is_GeometryCollection_class (class_of o)), s)
       | None => (Normal false, s)
       end.

(** [checkNotGeometryCollection] (lines 1392-1396). *)
Definition checkNotGeometryCollection (g : ref) : M unit :=
  var gc := instanceof_GeometryCollection g;
  if gc then throw (Error "This method does not support GeometryCollection")
  else ret ().

(** [isGeometryCollection] (lines 1403-1405). *)
Definition isGeometryCollection (this : ref) : M bool :=
  instanceof_GeometryCollection this.

(** *** External algorithms *)

Definition call_RelateOp_relate (a b : ref) : M IntersectionMatrix :=
  record (Called_RelateOp_relate a b);;
  var x := deref a;
  var y := deref b;
  complete (RelateOp_relate x y).

Definition call_RectangleIntersects_intersects (rectangle b : ref) : M bool :=
  record (Called_RectangleIntersects_intersects rectangle b);;
  var x := deref rectangle;
  var y := deref b;
  complete (RectangleIntersects_intersects x y).

Definition call_RectangleContains_contains (rectangle b : ref) : M bool :=
  record (Called_RectangleContains_contains rectangle b);;
  var x := deref rectangle;
  var y := deref b;
  complete (RectangleContains_contains x y).

(** The geometry an overlay returns is a new object. *)
Definition call_SnapIfNeededOverlayOp_overlayOp (a b : ref)
    (opCode : OverlayOpCode) : M ref :=
  record (Called_SnapIfNeededOverlayOp_overlayOp a b opCode);;
  var x := deref a;
  var y := deref b;
  var r := complete (SnapIfNeededOverlayOp_overlayOp x y opCode);
  alloc r.

Definition call_UnaryUnionOp_union (a : ref) : M ref :=
  record (Called_UnaryUnionOp_union a);;
  var x := deref a;
  var r := complete (UnaryUnionOp_union x);
  alloc r.

(** A call [receiver.<method>(argument)] of an Envelope method: the
    receiver is evaluated and must be an object before the argument is
    evaluated. *)
Definition Envelope_call (method : Envelope → Envelope → bool)
    (receiver : option Envelope) (argument : M (option Envelope)) : M bool :=
  match receiver with
  | None => throw (TypeError "null")
  | Some a =>
      var v := argument;
      match v with
      | Some b => ret (method a b)
      | None => throw (TypeError "null")
      end
  end.

(** *** getEnvelopeInternal (lines 512-517)

    [if (this.envelope === null)
       this.envelope = this.computeEnvelopeInternal();
     return envelope]: the returned expression is the bare identifier
    [envelope], not the property [this.envelope]. *)
Definition getEnvelopeInternal (this : ref) : M (option Envelope) :=
  var o := deref this;
  match envelope o with
  | None =>
      var e := computeEnvelopeInternal this;
      update this (with_envelope e)
  | Some _ => ret ()
  end;;
  free_identifier "envelope".

(** *** relate (lines 883-887)

    The function of line 867, [relate(g, intersectionPattern)], is
    replaced by this one before any call can reach it. *)
Definition relate_883 (this g : ref) : M IntersectionMatrix :=
  checkNotGeometryCollection this;;
  checkNotGeometryCollection g;;
  call_RelateOp_relate this g.

Definition relate (this g : ref) : M IntersectionMatrix :=
  invoke "relate" [(883%N, relate_883 this g)].

(** *** Predicates *)

(** [intersects] (lines 599-624). *)
Definition intersects (this g : ref) : M bool :=
  var env := getEnvelopeInternal this;
  var hit := Envelope_call Envelope_intersects env (getEnvelopeInternal g);
  if negb hit then ret false
  else
    var r1 := isRectangle this;
    if r1 then call_RectangleIntersects_intersects this g
    else
      var r2 := isRectangle g;
      if r2 then call_RectangleIntersects_intersects g this
      else
        var im := relate this g;
        ret (isIntersects im).

(** [disjoint] (lines 541-543): [return !this.intersects(g)]. *)
Definition disjoint (this g : ref) : M bool :=
  var b := intersects this g;
  ret (negb b).

(** [touches] (lines 568-574). *)
Definition touches (this g : ref) : M bool :=
  var env := getEnvelopeInternal this;
  var hit := Envelope_call Envelope_intersects env (getEnvelopeInternal g);
  if negb hit then ret false
  else
    var im := relate this g;
    var dimA := getDimension this;
    var dimB := getDimension g;
    ret (isTouches im dimA dimB).

(** [crosses] (lines 654-660). *)
Definition crosses (this g : ref) : M bool :=
  var env := getEnvelopeInternal this;
  var hit := Envelope_call Envelope_intersects env (getEnvelopeInternal g);
  if negb hit then ret false
  else
    var im := relate this g;
    var dimA := getDimension this;
    var dimB := getDimension g;
    ret (isCrosses im dimA dimB).

(** [contains] (lines 717-728). *)
Definition contains (this g : ref) : M bool :=
  var env := getEnvelopeInternal this;
  var inside := Envelope_call Envelope_contains env (getEnvelopeInternal g);
  if negb inside then ret false
  else
    var r := isRectangle this;
    if r then call_RectangleContains_contains this g
    else
      var im := relate this g;
      ret (isContains im).

(** [within] (lines 687-689): [return g.contains(this)]. *)
Definition within (this g : ref) : M bool :=
  contains g this.

(** [overlaps] (lines 754-760). *)
Definition overlaps (this g : ref) : M bool :=
  var env := getEnvelopeInternal this;
  var hit := Envelope_call Envelope_intersects env (getEnvelopeInternal g);
  if negb hit then ret false
  else
    var im := relate this g;
    var dimA := getDimension this;
    var dimB := getDimension g;
    ret (isOverlaps im dimA dimB).

(** [covers] (lines 794-805). *)
Definition covers (this g : ref) : M bool :=
  var env := getEnvelopeInternal this;
  var inside := Envelope_call Envelope_covers env (getEnvelopeInternal g);
  if negb inside then ret false
  else
    var r := isRectangle this;
    if r then ret true
    else
      var im := relate this g;
      ret (isCovers im).

(** [coveredBy] (lines 835-837): [return g.covers(this)]. *)
Definition coveredBy (this g : ref) : M bool :=
  covers g this.

(** *** Set-theoretic operations *)

(** [intersection] (lines 1080-1107).  The body of the
    [if (this.isGeometryCollection(this))] statement only declares a
    local; the mapping over the elements is commented out. *)
Definition intersection (this other : ref) : M ref :=
  var e1 := isEmpty this;
  if e1 then
    var f := getFactory this;
    GeometryFactory_createGeometryCollection f None
  else
    var e2 := isEmpty other;
    if e2 then
      var f := getFactory this;
      GeometryFactory_createGeometryCollection f None
    else
      isGeometryCollection this;;
      checkNotGeometryCollection this;;
      checkNotGeometryCollection other;;
      call_SnapIfNeededOverlayOp_overlayOp this other INTERSECTION.

(** The function of lines 1123-1137, [union(other)]. *)
Definition union_1123 (this other : ref) : M ref :=
  var e1 := isEmpty this;
  if e1 then clone other
  else
    var e2 := isEmpty other;
    if e2 then clone this
    else
      checkNotGeometryCollection this;;
      checkNotGeometryCollection other;;
      call_SnapIfNeededOverlayOp_overlayOp this other UNION.

(** The function of lines 1221-1223, [union()]:
    [return UnaryUnionOp.union(this)]. *)
Definition union_1221 (this : ref) : M ref :=
  call_UnaryUnionOp_union this.

(** A call [this.union(other)].  Both functions are assigned to the one
    property [union]; an argument a function does not declare is
    dropped. *)
Definition union (this other : ref) : M ref :=
  invoke "union" [(1123%N, union_1123 this other); (1221%N, union_1221 this)].

(** [difference] (lines 1155-1170).  The first guard is spelled
    [this.heckNotGeometryCollection(this)]. *)
Definition difference (this other : ref) : M ref :=
  var e1 := isEmpty this;
  if e1 then
    var f := getFactory this;
    GeometryFactory_createGeometryCollection f None
  else
    var e2 := isEmpty other;
    if e2 then clone this
    else
      invoke (A := unit) "heckNotGeometryCollection" [];;
      checkNotGeometryCollection other;;
      call_SnapIfNeededOverlayOp_overlayOp this other DIFFERENCE.

(** [symDifference] (lines 1189-1201). *)
Definition symDifference (this other : ref) : M ref :=
  var e1 := isEmpty this;
  if e1 then clone other
  else
    var e2 := isEmpty other;
    if e2 then clone this
    else
      checkNotGeometryCollection this;;
      checkNotGeometryCollection other;;
      call_SnapIfNeededOverlayOp_overlayOp this other SYMDIFFERENCE.

(** *** compareTo *)

(** The steps the two functions share: the class sort indices, then
    emptiness ([&&] evaluates its right operand only when the left one
    is true); [same_class] is the final [return]. *)
Definition compareTo_body (this other : ref) (same_class : M Z) : M Z :=
  var i := getClassSortIndex this;
  var j := getClassSortIndex other;
  if negb (Z.eqb i j) then
    var i' := getClassSortIndex this;
    var j' := getClassSortIndex other;
    ret (i' - j')
  else
    var e1 := isEmpty this;
    var both := (if e1 then isEmpty other else ret false);
    if both then ret 0
    else
      var e1' := isEmpty this;
      if e1' then ret (-1)
      else
        var e2 := isEmpty other;
        if e2 then ret 1
        else same_class.

(** The function of lines 1314-1328, [compareTo(other)]; it ends in
    [return this.compareToSameClass(o)], where [o] is no parameter. *)
Definition compareTo_1314 (this other : ref) : M Z :=
  compareTo_body this other
    (var o := free_identifier "o";
     compareToSameClass this o None).

(** The function of lines 1364-1378, [compareTo(other, comp)]; it ends
    in [return this.compareToSameClass(o, comp)]. *)
Definition compareTo_1364 (this other : ref) (comp : option Comparator) : M Z :=
  compareTo_body this other
    (var o := free_identifier "o";
     compareToSameClass this o comp).

(** A call [this.compareTo(other)] or [this.compareTo(other, comp)];
    [comp] is [None] when the caller passes one argument. *)
Definition compareTo (this other : ref) (comp : option Comparator) : M Z :=
  invoke "compareTo"
    [(1314%N, compareTo_1314 this other); (1364%N, compareTo_1364 this other comp)].

End Methods.
End Geometry.

(** ** Test doubles

    Stand-ins for the collaborators, enough to run the base class on
    small inputs: integer coordinates, geometries known by their list of
    vertices or of element references, and algorithms that only look at
    vertices. *)

Module Stub.

Inductive Box :=
| NullBox
| MkBox (minx maxx miny maxy : Z).

Inductive Data :=
| Vertices (pts : list (Z * Z))
| Elements (children : list ref).

#[local] Instance domain : Domain := {|
  Envelope := Box;
  IntersectionMatrix := list Z;
  Shape := Data;
  Comparator := unit
|}.

Definition box_intersects (a b : Box) : bool :=
  match a, b with
  | MkBox ax1 ax2 ay1 ay2, MkBox bx1 bx2 by1 by2 =>
      negb ((ax2 <? bx1) || (bx2 <? ax1) || (ay2 <? by1) || (by2 <? ay1))
  | _, _ => false
  end.

Definition box_covers (a b : Box) : bool :=
  match a, b with
  | MkBox ax1 ax2 ay1 ay2, MkBox bx1 bx2 by1 by2 =>
      (ax1 <=? bx1) && (bx2 <=? ax2) && (ay1 <=? by1) && (by2 <=? ay2)
  | _, _ => false
  end.

Definition grow (b : Box) (p : Z * Z) : Box :=
  match b with
  | NullBox => MkBox p.1 p.1 p.2 p.2
  | MkBox x1 x2 y1 y2 =>
      MkBox (Z.min x1 p.1) (Z.max x2 p.1) (Z.min y1 p.2) (Z.max y2 p.2)
  end.

Definition vertices (o : GeometryObj) : list (Z * Z) :=
  match shape o with
  | Some (Vertices pts) => pts
  | _ => []
  end.

Definition no_data (o : GeometryObj) : bool :=
  match shape o with
  | Some (Vertices (_ :: _)) => false
  | Some (Elements (_ :: _)) => false
  | _ => true
  end.

Definition dimension (c : GeometryClass) : Z :=
  match c with
  | LineString | LinearRing | MultiLineString => 1
  | Polygon | MultiPolygon => 2
  | _ => 0
  end.

Definition cell (m : list Z) (i : nat) : Z := default (-1) (m !! i).
Definition T (m : list Z) (i : nat) : bool := 0 <=? cell m i.
Definition F (m : list Z) (i : nat) : bool := cell m i <? 0.

Definition point_eqb (p q : Z * Z) : bool :=
  Z.eqb p.1 q.1 && Z.eqb p.2 q.2.

Definition mem (p : Z * Z) (l : list (Z * Z)) : bool :=
  existsb (point_eqb p) l.

Fixpoint compare_vertices (a b : list (Z * Z)) : Z :=
  match a, b with
  | [], [] => 0
  | [], _ :: _ => -1
  | _ :: _, [] => 1
  | p :: a', q :: b' =>
      if p.1 <? q.1 then -1 else if q.1 <? p.1 then 1
      else if p.2 <? q.2 then -1 else if q.2 <? p.2 then 1
      else compare_vertices a' b'
  end.

Definition result (o : GeometryObj) (pts : list (Z * Z)) : GeometryObj :=
  {| class_of := class_of o; factory := factory o; SRID := SRID o;
     envelope := None; shape := Some (Vertices pts) |}.

Definition overlay (a b : GeometryObj) (opCode : OverlayOpCode) : GeometryObj :=
  let va := vertices a in
  let vb := vertices b in
  result a
    match opCode with
    | INTERSECTION => filter (λ p, mem p vb = true) va
    | UNION => va ++ filter (λ p, mem p va = false) vb
    | DIFFERENCE => filter (λ p, mem p vb = false) va
    | SYMDIFFERENCE =>
        filter (λ p, mem p vb = false) va ++ filter (λ p, mem p va = false) vb
    end.

#[local] Instance collaborators : Collaborators := {|
  Envelope_intersects := box_intersects;
  Envelope_contains := box_covers;
  Envelope_covers := box_covers;
  Envelope_copy := λ b, b;
  isTouches := λ m dimA dimB,
    if Z.eqb dimA 0 && Z.eqb dimB 0 then false
    else F m 0 && (T m 1 || T m 3 || T m 4);
  isCrosses := λ m dimA dimB,
    if dimA <? dimB then T m 0 && T m 2
    else if dimB <? dimA then T m 0 && T m 6
    else Z.eqb dimA 1 && Z.eqb (cell m 0) 0;
  isOverlaps := λ m dimA dimB,
    if negb (Z.eqb dimA dimB) then false
    else if Z.eqb dimA 1 then Z.eqb (cell m 0) 1 && T m 2 && T m 6
    else T m 0 && T m 2 && T m 6;
  isIntersects := λ m, T m 0 || T m 1 || T m 3 || T m 4;
  isContains := λ m, T m 0 && F m 6 && F m 7;
  isCovers := λ m, (T m 0 || T m 1 || T m 3 || T m 4) && F m 6 && F m 7;
  variant_isEmpty := no_data;
  variant_getDimension := λ o, dimension (class_of o);
  variant_computeEnvelopeInternal := λ o, Some (foldl grow NullBox (vertices o));
  variant_isRectangle := λ o,
    bool_decide (class_of o = Polygon) && Nat.eqb (length (vertices o)) 5;
  variant_compareToSameClass := λ a b _,
    compare_vertices (vertices a) (vertices b);
  variant_clone := λ this, var o := deref this; alloc o;
  extends_GeometryCollection := λ c,
    match c with
    | MultiPoint | MultiLineString | MultiPolygon => true
    | _ => false
    end;
  RelateOp_relate := λ a b,
    Normal (if existsb (λ p, mem p (vertices b)) (vertices a)
            then [0; -1; -1; -1; -1; -1; -1; -1; 2]
            else [-1; -1; dimension (class_of a); -1; -1; -1;
                  dimension (class_of b); -1; 2]);
  RectangleIntersects_intersects := λ r b,
    Normal (existsb (λ p, box_covers (foldl grow NullBox (vertices r))
                            (MkBox p.1 p.1 p.2 p.2)) (vertices b));
  RectangleContains_contains := λ r b,
    Normal (forallb (λ p, box_covers (foldl grow NullBox (vertices r))
                            (MkBox p.1 p.1 p.2 p.2)) (vertices b));
  SnapIfNeededOverlayOp_overlayOp := λ a b opCode, Normal (overlay a b opCode);
  UnaryUnionOp_union := λ a, Normal (with_envelope None a)
|}.

Definition geometry (c : GeometryClass) (env : option Box) (d : Data) : GeometryObj :=
  {| class_of := c; factory := Some 0%nat; SRID := Some 4326;
     envelope := env; shape := Some d |}.

Definition point : GeometryObj :=
  geometry Point None (Vertices [(5, 5)]).
Definition far_point : GeometryObj :=
  geometry Point None (Vertices [(100, 100)]).
Definition empty_point : GeometryObj :=
  geometry Point None (Vertices []).
Definition empty_line : GeometryObj :=
  geometry LineString None (Vertices []).
(** a rectangle whose envelope is cached *)
Definition rectangle : GeometryObj :=
  geometry Polygon (Some (MkBox 0 10 0 10))
    (Vertices [(0, 0); (10, 0); (10, 10); (0, 10); (0, 0)]).
(** a collection holding the point *)
Definition collection : GeometryObj :=
  geometry GeometryCollection None (Elements [0%nat]).
(** a bare instance of the base class *)
Definition bare : GeometryObj :=
  {| class_of := BaseGeometry; factory := Some 0%nat; SRID := Some 4326;
     envelope := None; shape := None |}.
Definition the_factory : FactoryObj := {| factory_SRID := Some 4326 |}.

(** One factory and seven geometries, at the references 0 to 6. *)
Definition store : State := {|
  geometries :=
    [ point; empty_point; rectangle; collection; bare; far_point; empty_line ];
  factories := [ the_factory ];
  journal := []
|}.

End Stub.

(** ** Vocabulary of the statements *)

Section Vocabulary.
Context {D : Domain} {C : Collaborators}.

(** What [isEmpty] answers for an object. *)
Definition object_isEmpty (o : GeometryObj) : bool :=
  match class_of o with
  | BaseGeometry => true
  | _ => variant_isEmpty o
  end.

(** What [computeEnvelopeInternal] answers for an object. *)
Definition computed_envelope (o : GeometryObj) : option Envelope :=
  match class_of o with
  | BaseGeometry => None
  | _ => variant_computeEnvelopeInternal o
  end.

(** The store once the cache slot of [this] has been filled, if it was
    empty. *)
Definition with_cache_filled (this : ref) (o : GeometryObj) (s : State) : State :=
  match envelope o with
  | Some _ => s
  | None =>
      {| geometries := <[this := with_envelope (computed_envelope o) o]> (geometries s);
         factories := factories s;
         journal := journal s |}
  end.

(** The store with one more object; nothing else changes, and no call
    to an external algorithm is noted. *)
Definition extended (s : State) (o : GeometryObj) : State :=
  {| geometries := geometries s ++ [o];
     factories := factories s;
     journal := journal s |}.

(** The object [new] leaves behind once the constructor of Geometry has
    run on an instance of class [c] for the factory [f], whose state is
    [fo]. *)
Definition constructed (c : GeometryClass) (sh : option Shape) (f : ref)
    (fo : FactoryObj) : GeometryObj :=
  {| class_of := c; factory := Some f; SRID := factory_SRID fo;
     envelope := None; shape := sh |}.

(** The store after a call to an external algorithm that returns a
    geometry: the call is noted and what it returned is a new object. *)
Definition delegated (s : State) (e : Event) (c : Completion GeometryObj) : State :=
  {| geometries := match c with
                   | Normal r => geometries s ++ [r]
                   | Abrupt _ => geometries s
                   end;
     factories := factories s;
     journal := e :: journal s |}.

(** What a call [this.getFactory().<name>(...)] raises on [o] when the
    factory prototype has no function [name]: the factory of [o] is
    null, or names no object, or is an object without that function. *)
Definition missing_factory_method (name : string) (o : GeometryObj)
    (s : State) : Exception :=
  match factory o with
  | None => TypeError "null"
  | Some f =>
      match factories s !! f with
      | Some _ => TypeError name
      | None => TypeError "undefined"
      end
  end.

(** An operation that started in [s] did exactly what [a.clone()] does
    there: same completion, same store, same calls. *)
Definition returns_duplicate_of (a : ref) (s : State)
    (out : Completion ref * State) : Prop :=
  out = Geometry.clone a s.

End Vocabulary.

(** ** The rest of the prototype

    The methods of the base class that stand beside the ones above,
    with the collaborators only they call. *)

Class Algorithms {D : Domain} := {
  (** [jsts.geom.Coordinate] and a JavaScript number used as a distance *)
  Coordinate : Type;
  Number : Type;
  Number_gt : Number → Number → bool;
  (** [Envelope.prototype.distance] and [equals] *)
  Envelope_distance : Envelope → Envelope → Number;
  Envelope_equals : Envelope → Envelope → bool;
  (** [IntersectionMatrix.prototype.isEquals] and [matches] *)
  isEquals : IntersectionMatrix → Z → Z → bool;
  matches : IntersectionMatrix → string → bool;
  (** [new IsSimpleOp(g).isSimple()], [new IsValidOp(g).isValid()] *)
  IsSimpleOp_isSimple : GeometryObj → Completion bool;
  IsValidOp_isValid : GeometryObj → Completion bool;
  (** [DistanceOp.isWithinDistance(a, b, distance)] *)
  DistanceOp_isWithinDistance :
    GeometryObj → GeometryObj → Number → Completion bool;
  (** [factory.toGeometry(envelope)] *)
  GeometryFactory_toGeometry :
    FactoryObj → option Envelope → Completion GeometryObj;
  (** [cent = new Centroid<Kind>(); cent.add(g); cent.getCentroid()] and
      [new InteriorPoint<Kind>(g).getInteriorPoint()] for the kinds
      Point, Line and Area *)
  CentroidPoint_getCentroid : GeometryObj → Completion (option Coordinate);
  CentroidLine_getCentroid : GeometryObj → Completion (option Coordinate);
  CentroidArea_getCentroid : GeometryObj → Completion (option Coordinate);
  InteriorPointPoint_getInteriorPoint : GeometryObj → Completion (option Coordinate);
  InteriorPointLine_getInteriorPoint : GeometryObj → Completion (option Coordinate);
  InteriorPointArea_getInteriorPoint : GeometryObj → Completion (option Coordinate)
}.

Module GeometryRest.
Section Methods.
Context {D : Domain} {C : Collaborators} {A : Algorithms}.

(** *** jsts.geom.GeometryFactory

    The constructor (GeometryFactory.js, lines 23-25) has an empty body:
    the new factory reads [SRID] from the prototype, where it is [null]
    (line 32). *)
Definition GeometryFactory_new : M ref :=
  λ s, (Normal (length (factories s)),
        {| geometries := geometries s;
           factories := factories s ++ [ {| factory_SRID := None |} ];
           journal := journal s |}).

(** [new jsts.geom.Geometry(factory)]: an instance of the base class. *)
Definition Geometry_constructor (f : option ref) : M ref :=
  Geometry_new BaseGeometry None f.

(** *** Constant answers of the base class *)

(** [getNumGeometries] (lines 175-177): [return 1]. *)
Definition getNumGeometries (this : ref) : M Z := ret 1.

(** [getGeometryN] (lines 188-190): [return this], whatever [n] is. *)
Definition getGeometryN (this : ref) (n : Z) : M ref := ret this.

(** [equalsExact] (lines 1248-1250): [return false]. *)
Definition equalsExact (this other : ref) (tolerance : option Number) : M bool :=
  ret false.

(** *** isSimple (lines 288-292) and isValid (lines 304-307) *)

Definition isSimple (this : ref) : M bool :=
  Geometry.checkNotGeometryCollection this;;
  var o := deref this;
  complete (IsSimpleOp_isSimple o).

Definition isValid (this : ref) : M bool :=
  var o := deref this;
  complete (IsValidOp_isValid o).

(** *** Methods that start from the envelope *)

(** A call [receiver.<method>(argument)] of an Envelope method with any
    result: as [Geometry.Envelope_call]. *)
Definition Envelope_call_to {R} (method : Envelope → Envelope → R)
    (receiver : option Envelope) (argument : M (option Envelope)) : M R :=
  match receiver with
  | None => throw (TypeError "null")
  | Some a =>
      var v := argument;
      match v with
      | Some b => ret (method a b)
      | None => throw (TypeError "null")
      end
  end.

(** [getEnvelope] (lines 499-501):
    [return this.getFactory().toGeometry(this.getEnvelopeInternal())].
    The receiver of [toGeometry] is evaluated, and must be an object,
    before the argument is evaluated. *)
Definition getEnvelope (this : ref) : M ref :=
  var f := Geometry.getFactory this;
  var fo := deref_factory f;
  var env := Geometry.getEnvelopeInternal this;
  var r := complete (GeometryFactory_toGeometry fo env);
  alloc r.

(** [isWithinDistance] (lines 349-355). *)
Definition isWithinDistance (this geom : ref) (distance : Number) : M bool :=
  var env := Geometry.getEnvelopeInternal this;
  var envDist := Envelope_call_to Envelope_distance env
                   (Geometry.getEnvelopeInternal geom);
  if Number_gt envDist distance then ret false
  else
    var x := deref this;
    var y := deref geom;
    complete (DistanceOp_isWithinDistance x y distance).

(** [equals] (lines 908-914). *)
Definition equals (this g : ref) : M bool :=
  var env := Geometry.getEnvelopeInternal this;
  var same := Geometry.Envelope_call Envelope_equals env
                (Geometry.getEnvelopeInternal g);
  if negb same then ret false
  else
    var im := Geometry.relate this g;
    var dimA := Geometry.getDimension this;
    var dimB := Geometry.getDimension g;
    ret (isEquals im dimA dimB).

(** *** relate with a pattern

    The function of lines 867-869, [relate(g, intersectionPattern)]:
    [return this.relate(g).matches(intersectionPattern)]. *)
Definition relate_867 (this g : ref) (intersectionPattern : string) : M bool :=
  var im := Geometry.relate this g;
  ret (matches im intersectionPattern).

(** A call [this.relate(g, intersectionPattern)]: what comes back is a
    matrix or a boolean, depending on the function the property
    [relate] holds. *)
Definition relate_with_pattern (this g : ref) (intersectionPattern : string)
    : M (IntersectionMatrix + bool) :=
  Geometry.invoke "relate"
    [(867%N, var b := relate_867 this g intersectionPattern; ret (inr b));
     (883%N, var im := Geometry.relate_883 this g; ret (inl im))].

(** *** getCentroid (lines 390-412) and getInteriorPoint (lines 423-438)

    [getCentroid] opens with [if (isEmpty())] and [getInteriorPoint]
    with [var dim = getDimension()]: calls of bare identifiers, not of
    methods of [this].  Both end in
    [this.createPointFromInternalCoord(...)], a property the prototype
    does not have. *)
Definition getCentroid (this : ref) : M (option ref) :=
  var e := free_identifier (A := bool) "isEmpty";
  if e then ret None
  else
    var dim := Geometry.getDimension this;
    var o := deref this;
    var centPt :=
      (if Z.eqb dim 0 then complete (CentroidPoint_getCentroid o)
       else if Z.eqb dim 1 then complete (CentroidLine_getCentroid o)
       else complete (CentroidArea_getCentroid o));
    Geometry.invoke "createPointFromInternalCoord" [].

Definition getInteriorPoint (this : ref) : M (option ref) :=
  var dim := free_identifier (A := Z) "getDimension";
  var o := deref this;
  var interiorPt :=
    (if Z.eqb dim 0 then complete (InteriorPointPoint_getInteriorPoint o)
     else if Z.eqb dim 1 then complete (InteriorPointLine_getInteriorPoint o)
     else complete (InteriorPointArea_getInteriorPoint o));
  Geometry.invoke "createPointFromInternalCoord" [].

(** *** compare (lines 1478-1496)

    The two collections are walked in step by their iterators; the
    elements are compared by their own [compareTo]. *)
Fixpoint compare_elements {X} (element_compareTo : X → X → M Z)
    (a b : list X) : M Z :=
  match a, b with
  | aElement :: i, bElement :: j =>
      var comparison := element_compareTo aElement bElement;
      if negb (Z.eqb comparison 0) then ret comparison
      else compare_elements element_compareTo i j
  | _ :: _, [] => ret 1
  | [], _ :: _ => ret (-1)
  | [], [] => ret 0
  end.

(** [compare] on collections of geometries. *)
Definition compare (a b : list ref) : M Z :=
  compare_elements (λ aElement bElement,
                      Geometry.compareTo aElement bElement None) a b.

End Methods.
End GeometryRest.

(** ** Test doubles for the rest *)

Module StubRest.

Definition box_distance (a b : Stub.Box) : Z :=
  match a, b with
  | Stub.MkBox ax1 ax2 ay1 ay2, Stub.MkBox bx1 bx2 by1 by2 =>
      Z.max 0 (Z.max (Z.max (bx1 - ax2) (ax1 - bx2))
                      (Z.max (by1 - ay2) (ay1 - by2)))
  | _, _ => 0
  end.

Definition box_eqb (a b : Stub.Box) : bool :=
  match a, b with
  | Stub.NullBox, Stub.NullBox => true
  | Stub.MkBox ax1 ax2 ay1 ay2, Stub.MkBox bx1 bx2 by1 by2 =>
      Z.eqb ax1 bx1 && Z.eqb ax2 bx2 && Z.eqb ay1 by1 && Z.eqb ay2 by2
  | _, _ => false
  end.

Definition symbol_matches (c : string) (v : Z) : bool :=
  if String.eqb c "*" then true
  else if String.eqb c "T" then 0 <=? v
  else if String.eqb c "F" then v <? 0
  else if String.eqb c "0" then Z.eqb v 0
  else if String.eqb c "1" then Z.eqb v 1
  else if String.eqb c "2" then Z.eqb v 2
  else false.

Fixpoint pattern_matches (m : list Z) (p : string) : bool :=
  match m, p with
  | [], EmptyString => true
  | v :: m', String c p' =>
      symbol_matches (String c EmptyString) v && pattern_matches m' p'
  | _, _ => false
  end.

(** The geometry of a box, as the comment of [getEnvelope] describes it
    (lines 487-498). *)
Definition box_geometry (e : option Stub.Box) : GeometryObj :=
  match e with
  | Some (Stub.MkBox x1 x2 y1 y2) =>
      if Z.eqb x1 x2 && Z.eqb y1 y2
      then Stub.geometry Point None (Stub.Vertices [(x1, y1)])
      else Stub.geometry Polygon None
             (Stub.Vertices [(x1, y1); (x2, y1); (x2, y2); (x1, y2); (x1, y1)])
  | _ => Stub.geometry Point None (Stub.Vertices [])
  end.

#[local] Existing Instance Stub.domain.
#[local] Existing Instance Stub.collaborators.

#[local] Instance algorithms : @Algorithms Stub.domain := {|
  Coordinate := Z * Z;
  Number := Z;
  Number_gt := Z.gtb;
  Envelope_distance := box_distance;
  Envelope_equals := box_eqb;
  isEquals := λ m _ _, pattern_matches m "T*F**FFF*";
  matches := pattern_matches;
  IsSimpleOp_isSimple := λ o, Normal (bool_decide (NoDup (Stub.vertices o)));
  IsValidOp_isValid := λ _, Normal true;
  DistanceOp_isWithinDistance := λ a b d,
    Normal (existsb (λ p, existsb (λ q,
              (Z.abs (p.1 - q.1) <=? d) && (Z.abs (p.2 - q.2) <=? d))
              (Stub.vertices b)) (Stub.vertices a));
  GeometryFactory_toGeometry := λ _ e, Normal (box_geometry e);
  CentroidPoint_getCentroid := λ o, Normal (head (Stub.vertices o));
  CentroidLine_getCentroid := λ o, Normal (head (Stub.vertices o));
  CentroidArea_getCentroid := λ o, Normal (head (Stub.vertices o));
  InteriorPointPoint_getInteriorPoint := λ o, Normal (head (Stub.vertices o));
  InteriorPointLine_getInteriorPoint := λ o, Normal (head (Stub.vertices o));
  InteriorPointArea_getInteriorPoint := λ o, Normal (head (Stub.vertices o))
|}.

(** A multi-point, an empty multi-point and an empty polygon, added to
    the store at the references 7, 8 and 9; a geometry that has lost its
    factory at 10. *)
Definition multi_point : GeometryObj :=
  Stub.geometry MultiPoint None (Stub.Vertices [(1, 1); (2, 2)]).
Definition empty_multi_point : GeometryObj :=
  Stub.geometry MultiPoint None (Stub.Vertices []).
Definition empty_polygon : GeometryObj :=
  Stub.geometry Polygon None (Stub.Vertices []).
Definition orphan : GeometryObj :=
  {| class_of := Point; factory := None; SRID := None; envelope := None;
     shape := Some (Stub.Vertices [(3, 3)]) |}.

Definition store : State := {|
  geometries := geometries Stub.store
                ++ [ multi_point; empty_multi_point; empty_polygon; orphan ];
  factories := factories Stub.store;
  journal := []
|}.

End StubRest.

(** ** Vocabulary of the further statements *)

Section FurtherVocabulary.
Context {D : Domain}.

(** A computation that hands back the store it was given, however it
    completes. *)
Definition leaves_store {A} (m : M A) : Prop :=
  ∀ s, (m s).2 = s.

(** The store with one more call to an external algorithm noted. *)
Definition noted (s : State) (e : Event) : State :=
  {| geometries := geometries s;
     factories := factories s;
     journal := e :: journal s |}.

(** [cmp] finds the two elements equal in [s] and does nothing else. *)
Definition equal_at {X} (cmp : X → X → M Z) (s : State) (x y : X) : Prop :=
  cmp x y s = (Normal 0, s).

End FurtherVocabulary.

(** * Properties *)

Section Runs.
Context {D : Domain} {C : Collaborators}.
Implicit Types (s : State) (a b o : GeometryObj) (this other g : ref).

(** ** How the primitives and the capabilities run *)

Lemma run_bind {A B} (m : M A) (k : A → M B) s :
  bind m k s = match m s with
               | (Normal x, s') => k x s'
               | (Abrupt e, s') => (Abrupt e, s')
               end.
Proof. reflexivity. Qed.

Lemma run_deref s g o :
  geometries s !! g = Some o → deref g s = (Normal o, s).
Proof. intros Hg. unfold deref. now rewrite Hg. Qed.

Lemma run_virtual {A} (base : M A) (override : GeometryObj → M A) s this o :
  geometries s !! this = Some o →
  Geometry.virtual this base override s =
    match class_of o with
    | BaseGeometry => base s
    | _ => override o s
    end.
Proof.
  intros Hthis. unfold Geometry.virtual.
  rewrite run_bind, (run_deref _ _ _ Hthis).
  now destruct (class_of o).
Qed.

Lemma run_isEmpty s this o :
  geometries s !! this = Some o →
  Geometry.isEmpty this s = (Normal (object_isEmpty o), s).
Proof.
  intros Hthis. unfold Geometry.isEmpty, object_isEmpty.
  rewrite (run_virtual _ _ _ _ _ Hthis). now destruct (class_of o).
Qed.

Lemma run_computeEnvelopeInternal s this o :
  geometries s !! this = Some o →
  Geometry.computeEnvelopeInternal this s = (Normal (computed_envelope o), s).
Proof.
  intros Hthis. unfold Geometry.computeEnvelopeInternal, computed_envelope.
  rewrite (run_virtual _ _ _ _ _ Hthis). now destruct (class_of o).
Qed.

Lemma run_getFactory s this o :
  geometries s !! this = Some o →
  Geometry.getFactory this s = (Normal (factory o), s).
Proof.
  intros Hthis. unfold Geometry.getFactory.
  now rewrite run_bind, (run_deref _ _ _ Hthis).
Qed.

(** ** The prototype after the file has run *)

Lemma union_is_the_unary_function : Geometry.method_of "union" = Some 1221%N.
Proof. reflexivity. Qed.

Lemma compareTo_is_the_comparator_function :
  Geometry.method_of "compareTo" = Some 1364%N.
Proof. reflexivity. Qed.

Lemma relate_is_the_matrix_function : Geometry.method_of "relate" = Some 883%N.
Proof. reflexivity. Qed.

Lemma no_heckNotGeometryCollection :
  Geometry.method_of "heckNotGeometryCollection" = None.
Proof. reflexivity. Qed.

Lemma run_union this other :
  Geometry.union this other = Geometry.union_1221 this.
Proof. reflexivity. Qed.

Lemma run_compareTo this other comp :
  Geometry.compareTo this other comp = Geometry.compareTo_1364 this other comp.
Proof. reflexivity. Qed.

(** ** getEnvelopeInternal and the predicates built on it *)

Lemma run_getEnvelopeInternal s this o :
  geometries s !! this = Some o →
  Geometry.getEnvelopeInternal this s =
    (Abrupt (ReferenceError "envelope"), with_cache_filled this o s).
Proof.
  intros Hthis. unfold Geometry.getEnvelopeInternal, with_cache_filled.
  rewrite run_bind, (run_deref _ _ _ Hthis).
  destruct (envelope o) as [e|]; [reflexivity|].
  rewrite !run_bind, (run_computeEnvelopeInternal _ _ _ Hthis).
  unfold update. now rewrite Hthis.
Qed.

Lemma journal_with_cache_filled this o s :
  journal (with_cache_filled this o s) = journal s.
Proof. unfold with_cache_filled. now destruct (envelope o). Qed.

(** A predicate that starts with [this.getEnvelopeInternal()] ends
    there. *)
Lemma run_after_getEnvelopeInternal {A} (k : option Envelope → M A) s this o :
  geometries s !! this = Some o →
  bind (Geometry.getEnvelopeInternal this) k s =
    (Abrupt (ReferenceError "envelope"), with_cache_filled this o s).
Proof.
  intros Hthis. now rewrite run_bind, (run_getEnvelopeInternal _ _ _ Hthis).
Qed.

(** ** Construction *)

Lemma lookup_snoc {A} (l : list A) (x : A) : (l ++ [x]) !! length l = Some x.
Proof. induction l as [|y l IH]; [reflexivity | exact IH]. Qed.

Lemma insert_snoc {A} (l : list A) (x y : A) :
  <[length l := y]> (l ++ [x]) = l ++ [y].
Proof. induction l as [|z l IH]; [reflexivity | simpl; now rewrite IH]. Qed.

Lemma run_Geometry_new s c sh f fo :
  factories s !! f = Some fo →
  Geometry_new c sh (Some f) s =
    (Normal (length (geometries s)), extended s (constructed c sh f fo)).
Proof.
  intros Hf.
  unfold Geometry_new, GeometryFactory_getSRID, deref_factory, bind, alloc,
    update, ret, extended, constructed.
  simpl. rewrite (lookup_snoc (geometries s)). simpl.
  rewrite Hf. simpl.
  rewrite (insert_snoc (geometries s)), (lookup_snoc (geometries s)).
  now rewrite (insert_snoc (geometries s)).
Qed.

Lemma run_createGeometryCollection s this o geoms :
  geometries s !! this = Some o →
  bind (Geometry.getFactory this)
    (λ f, GeometryFactory_createGeometryCollection f geoms) s =
    (Abrupt (missing_factory_method "createGeometryCollection" o s), s).
Proof.
  intros Hthis. rewrite run_bind, (run_getFactory _ _ _ Hthis).
  unfold GeometryFactory_createGeometryCollection, missing_factory_method.
  rewrite run_bind. unfold deref_factory.
  destruct (factory o) as [f|]; [|reflexivity].
  now destruct (factories s !! f).
Qed.

Lemma run_clone_1261 s this o f fo :
  geometries s !! this = Some o →
  factory o = Some f →
  factories s !! f = Some fo →
  Geometry.clone_1261 this s =
    (Normal (length (geometries s)),
     extended s (constructed BaseGeometry None f fo)).
Proof.
  intros Hthis Hfac Hf. unfold Geometry.clone_1261.
  rewrite run_bind, (run_deref _ _ _ Hthis), Hfac.
  rewrite run_bind, (run_Geometry_new _ _ _ _ _ Hf).
  rewrite run_bind. unfold deref at 1. simpl.
  now rewrite (lookup_snoc (geometries s)).
Qed.

(** ** Delegation *)

Lemma run_call_UnaryUnionOp_union s this a :
  geometries s !! this = Some a →
  Geometry.call_UnaryUnionOp_union this s =
    (map_completion (λ _, length (geometries s)) (UnaryUnionOp_union a),
     delegated s (Called_UnaryUnionOp_union this) (UnaryUnionOp_union a)).
Proof.
  intros Hthis.
  unfold Geometry.call_UnaryUnionOp_union, bind, record, deref, complete,
    alloc, delegated.
  simpl. rewrite Hthis. now destruct (UnaryUnionOp_union a).
Qed.

Lemma run_checkNotGeometryCollection s g o :
  geometries s !! g = Some o →
  Geometry.checkNotGeometryCollection g s =
    (if Geometry.is_GeometryCollection_class (class_of o)
     then Abrupt (Error "This method does not support GeometryCollection")
     else Normal (), s).
Proof.
  intros Hg.
  unfold Geometry.checkNotGeometryCollection, bind,
    Geometry.instanceof_GeometryCollection.
  rewrite Hg. now destruct (Geometry.is_GeometryCollection_class (class_of o)).
Qed.

Lemma run_getClassSortIndex s this o i :
  geometries s !! this = Some o →
  Geometry.class_sort_index (class_of o) = Some i →
  Geometry.getClassSortIndex this s = (Normal i, s).
Proof.
  intros Hthis Hi. unfold Geometry.getClassSortIndex.
  rewrite (run_virtual _ _ _ _ _ Hthis).
  destruct (class_of o); simpl in Hi; try discriminate;
    injection Hi as <-; reflexivity.
Qed.

End Runs.

Section Claims.
Context {D : Domain} {C : Collaborators}.
Implicit Types (s : State) (a b o : GeometryObj) (this other g : ref).

(** C2.  The code departs from the claim: on every geometry,
    [getEnvelopeInternal] fills the cache slot when it is empty (with
    what [computeEnvelopeInternal] answers) and then, instead of
    returning the cached envelope, raises a ReferenceError for the
    identifier [envelope].  No call returns a value. *)
Theorem getEnvelopeInternal_raises_ReferenceError s this o :
  geometries s !! this = Some o →
  Geometry.getEnvelopeInternal this s =
    (Abrupt (ReferenceError "envelope"), with_cache_filled this o s).
Proof. apply run_getEnvelopeInternal. Qed.

(** C9.  The code departs from the claim: [touches], [crosses] and
    [overlaps] evaluate [this.getEnvelopeInternal()] first, so each of
    them raises the ReferenceError of that method, whether or not the
    envelopes intersect; none returns false and none reaches [relate]
    (no call to an external algorithm is noted). *)
Theorem touches_crosses_overlaps_raise s this g o :
  geometries s !! this = Some o →
  let ended := (Abrupt (ReferenceError "envelope"), with_cache_filled this o s) in
  Geometry.touches this g s = ended ∧
  Geometry.crosses this g s = ended ∧
  Geometry.overlaps this g s = ended ∧
  journal (with_cache_filled this o s) = journal s.
Proof.
  intros Hthis ended.
  unfold Geometry.touches, Geometry.crosses, Geometry.overlaps.
  rewrite !(run_after_getEnvelopeInternal _ _ _ _ Hthis).
  repeat split. apply journal_with_cache_filled.
Qed.

(** C5.  The code departs from the claim: [intersects], [contains] and
    [covers] evaluate [this.getEnvelopeInternal()] first, so each of
    them raises the ReferenceError of that method before it asks
    whether an operand is a rectangle; no rectangle evaluator is called
    and [covers] never returns true. *)
Theorem intersects_contains_covers_raise s this g o :
  geometries s !! this = Some o →
  let ended := (Abrupt (ReferenceError "envelope"), with_cache_filled this o s) in
  Geometry.intersects this g s = ended ∧
  Geometry.contains this g s = ended ∧
  Geometry.covers this g s = ended ∧
  journal (with_cache_filled this o s) = journal s.
Proof.
  intros Hthis ended.
  unfold Geometry.intersects, Geometry.contains, Geometry.covers.
  rewrite !(run_after_getEnvelopeInternal _ _ _ _ Hthis).
  repeat split. apply journal_with_cache_filled.
Qed.



End Claims.

Section Overlays.
Context {D : Domain} {C : Collaborators}.
Implicit Types (s : State) (a b o : GeometryObj) (this other g : ref).

(** ** The paths of the set-theoretic operations *)

Lemma run_union_call s this other a :
  geometries s !! this = Some a →
  Geometry.union this other s =
    (map_completion (λ _, length (geometries s)) (UnaryUnionOp_union a),
     delegated s (Called_UnaryUnionOp_union this) (UnaryUnionOp_union a)).
Proof.
  intros Hthis. rewrite run_union. unfold Geometry.union_1221.
  now apply run_call_UnaryUnionOp_union.
Qed.

Lemma run_isGeometryCollection s this :
  ∃ v, Geometry.isGeometryCollection this s = (Normal v, s).
Proof.
  unfold Geometry.isGeometryCollection, Geometry.instanceof_GeometryCollection.
  destruct (geometries s !! this); eauto.
Qed.

Lemma intersection_empty_receiver s this other a :
  geometries s !! this = Some a →
  object_isEmpty a = true →
  Geometry.intersection this other s =
    (Abrupt (missing_factory_method "createGeometryCollection" a s), s).
Proof.
  intros Hthis Ha. unfold Geometry.intersection.
  rewrite run_bind, (run_isEmpty _ _ _ Hthis), Ha.
  now apply run_createGeometryCollection.
Qed.

Lemma intersection_empty_argument s this other a b :
  geometries s !! this = Some a → geometries s !! other = Some b →
  object_isEmpty b = true →
  Geometry.intersection this other s =
    (Abrupt (missing_factory_method "createGeometryCollection" a s), s).
Proof.
  intros Hthis Hother Hb.
  destruct (object_isEmpty a) eqn:Ha;
    [now apply (intersection_empty_receiver _ _ _ a)|].
  unfold Geometry.intersection.
  rewrite run_bind, (run_isEmpty _ _ _ Hthis), Ha.
  rewrite run_bind, (run_isEmpty _ _ _ Hother), Hb.
  now apply run_createGeometryCollection.
Qed.

Lemma difference_empty_receiver s this other a :
  geometries s !! this = Some a →
  object_isEmpty a = true →
  Geometry.difference this other s =
    (Abrupt (missing_factory_method "createGeometryCollection" a s), s).
Proof.
  intros Hthis Ha. unfold Geometry.difference.
  rewrite run_bind, (run_isEmpty _ _ _ Hthis), Ha.
  now apply run_createGeometryCollection.
Qed.

Lemma difference_empty_argument s this other a b :
  geometries s !! this = Some a → geometries s !! other = Some b →
  object_isEmpty a = false → object_isEmpty b = true →
  Geometry.difference this other s = Geometry.clone this s.
Proof.
  intros Hthis Hother Ha Hb. unfold Geometry.difference.
  rewrite run_bind, (run_isEmpty _ _ _ Hthis), Ha.
  now rewrite run_bind, (run_isEmpty _ _ _ Hother), Hb.
Qed.

Lemma difference_nonempty_operands s this other a b :
  geometries s !! this = Some a → geometries s !! other = Some b →
  object_isEmpty a = false → object_isEmpty b = false →
  Geometry.difference this other s =
    (Abrupt (TypeError "heckNotGeometryCollection"), s).
Proof.
  intros Hthis Hother Ha Hb. unfold Geometry.difference.
  rewrite run_bind, (run_isEmpty _ _ _ Hthis), Ha.
  now rewrite run_bind, (run_isEmpty _ _ _ Hother), Hb.
Qed.

(** On an instance of the base class itself, [clone] is the function of
    line 1261. *)
Lemma clone_of_base_instance s this o :
  geometries s !! this = Some o →
  class_of o = BaseGeometry →
  Geometry.clone this s = Geometry.clone_1261 this s.
Proof.
  intros Hthis Hbase. unfold Geometry.clone.
  now rewrite (run_virtual _ _ _ _ _ Hthis), Hbase.
Qed.

(** [symDifference] with an empty receiver duplicates the argument; with
    a non-empty receiver and an empty argument it duplicates the
    receiver. *)
Lemma symDifference_empty_receiver s this other a :
  geometries s !! this = Some a →
  object_isEmpty a = true →
  returns_duplicate_of other s (Geometry.symDifference this other s).
Proof.
  intros Hthis Ha. unfold returns_duplicate_of, Geometry.symDifference.
  now rewrite run_bind, (run_isEmpty _ _ _ Hthis), Ha.
Qed.

Lemma symDifference_empty_argument s this other a b :
  geometries s !! this = Some a → geometries s !! other = Some b →
  object_isEmpty a = false → object_isEmpty b = true →
  returns_duplicate_of this s (Geometry.symDifference this other s).
Proof.
  intros Hthis Hother Ha Hb. unfold returns_duplicate_of, Geometry.symDifference.
  rewrite run_bind, (run_isEmpty _ _ _ Hthis), Ha.
  now rewrite run_bind, (run_isEmpty _ _ _ Hother), Hb.
Qed.

(** [intersection] and [symDifference] do reject a GeometryCollection
    among two non-empty operands, before any delegation. *)
Lemma guards_reject s this other a b (k : M ref) :
  geometries s !! this = Some a → geometries s !! other = Some b →
  Geometry.is_GeometryCollection_class (class_of a) = true ∨
  Geometry.is_GeometryCollection_class (class_of b) = true →
  bind (Geometry.checkNotGeometryCollection this)
    (λ _, bind (Geometry.checkNotGeometryCollection other) (λ _, k)) s =
    (Abrupt (Error "This method does not support GeometryCollection"), s).
Proof.
  intros Hthis Hother Hgc.
  rewrite run_bind, (run_checkNotGeometryCollection _ _ _ Hthis).
  destruct (Geometry.is_GeometryCollection_class (class_of a)); [reflexivity|].
  rewrite run_bind, (run_checkNotGeometryCollection _ _ _ Hother).
  destruct Hgc as [Hgc|Hgc]; [discriminate | now rewrite Hgc].
Qed.

Lemma intersection_rejects_GeometryCollection s this other a b :
  geometries s !! this = Some a → geometries s !! other = Some b →
  object_isEmpty a = false → object_isEmpty b = false →
  Geometry.is_GeometryCollection_class (class_of a) = true ∨
  Geometry.is_GeometryCollection_class (class_of b) = true →
  Geometry.intersection this other s =
    (Abrupt (Error "This method does not support GeometryCollection"), s).
Proof.
  intros Hthis Hother Ha Hb Hgc. unfold Geometry.intersection.
  rewrite run_bind, (run_isEmpty _ _ _ Hthis), Ha.
  rewrite run_bind, (run_isEmpty _ _ _ Hother), Hb.
  rewrite run_bind. destruct (run_isGeometryCollection s this) as [v ->].
  now apply (guards_reject _ _ _ a b).
Qed.

Lemma symDifference_rejects_GeometryCollection s this other a b :
  geometries s !! this = Some a → geometries s !! other = Some b →
  object_isEmpty a = false → object_isEmpty b = false →
  Geometry.is_GeometryCollection_class (class_of a) = true ∨
  Geometry.is_GeometryCollection_class (class_of b) = true →
  Geometry.symDifference this other s =
    (Abrupt (Error "This method does not support GeometryCollection"), s).
Proof.
  intros Hthis Hother Ha Hb Hgc. unfold Geometry.symDifference.
  rewrite run_bind, (run_isEmpty _ _ _ Hthis), Ha.
  rewrite run_bind, (run_isEmpty _ _ _ Hother), Hb.
  now apply (guards_reject _ _ _ a b).
Qed.

(** ** The paths of compareTo *)

Lemma compareTo_different_classes s this other a b comp i j :
  geometries s !! this = Some a → geometries s !! other = Some b →
  Geometry.class_sort_index (class_of a) = Some i →
  Geometry.class_sort_index (class_of b) = Some j →
  i ≠ j →
  Geometry.compareTo this other comp s = (Normal (i - j), s).
Proof.
  intros Hthis Hother Hi Hj Hij.
  rewrite run_compareTo. unfold Geometry.compareTo_1364, Geometry.compareTo_body.
  rewrite run_bind, (run_getClassSortIndex _ _ _ _ Hthis Hi).
  rewrite run_bind, (run_getClassSortIndex _ _ _ _ Hother Hj).
  destruct (Z.eqb_spec i j) as [|_]; [contradiction|]. simpl.
  rewrite run_bind, (run_getClassSortIndex _ _ _ _ Hthis Hi).
  now rewrite run_bind, (run_getClassSortIndex _ _ _ _ Hother Hj).
Qed.

Lemma compareTo_same_class s this other a b comp i :
  geometries s !! this = Some a → geometries s !! other = Some b →
  Geometry.class_sort_index (class_of a) = Some i →
  Geometry.class_sort_index (class_of b) = Some i →
  Geometry.compareTo this other comp s =
    match object_isEmpty a, object_isEmpty b with
    | true, true => (Normal 0, s)
    | true, false => (Normal (-1), s)
    | false, true => (Normal 1, s)
    | false, false => (Abrupt (ReferenceError "o"), s)
    end.
Proof.
  intros Hthis Hother Hi Hj.
  rewrite run_compareTo. unfold Geometry.compareTo_1364, Geometry.compareTo_body.
  rewrite run_bind, (run_getClassSortIndex _ _ _ _ Hthis Hi).
  rewrite run_bind, (run_getClassSortIndex _ _ _ _ Hother Hj).
  rewrite Z.eqb_refl. simpl.
  rewrite run_bind, (run_isEmpty _ _ _ Hthis).
  destruct (object_isEmpty a) eqn:Ha.
  - rewrite run_bind, (run_isEmpty _ _ _ Hother).
    destruct (object_isEmpty b); [reflexivity|].
    now rewrite run_bind, (run_isEmpty _ _ _ Hthis), Ha.
  - rewrite run_bind. unfold ret at 1.
    rewrite run_bind, (run_isEmpty _ _ _ Hthis), Ha.
    rewrite run_bind, (run_isEmpty _ _ _ Hother).
    now destruct (object_isEmpty b).
Qed.

End Overlays.

Section OverlayClaims.
Context {D : Domain} {C : Collaborators}.
Implicit Types (s : State) (a b o : GeometryObj) (this other g : ref).

(** C1.  The code departs from the claim for [union]: a call
    [this.union(other)] runs the function assigned last to the property
    [union], which takes no argument.  Whatever [other] is, and whether
    or not an operand is empty, the call notes a call of
    [UnaryUnionOp.union(this)] and completes as that algorithm does:
    the result is built from the receiver alone and is no duplicate of
    an operand. *)
Theorem union_call_delegates_to_UnaryUnionOp s this other a :
  geometries s !! this = Some a →
  Geometry.union this other s =
    (map_completion (λ _, length (geometries s)) (UnaryUnionOp_union a),
     delegated s (Called_UnaryUnionOp_union this) (UnaryUnionOp_union a)).
Proof. apply run_union_call. Qed.

(** C3.  The code departs from the claim for [union] and [difference]:
    on two non-empty operands, of whatever class, [union] raises no
    precondition failure but calls [UnaryUnionOp.union(this)] and
    completes as it does, and [difference] raises a TypeError for the
    property [heckNotGeometryCollection], whether or not an operand is a
    GeometryCollection. *)
Theorem union_and_difference_miss_the_guard s this other a b :
  geometries s !! this = Some a → geometries s !! other = Some b →
  object_isEmpty a = false → object_isEmpty b = false →
  (Geometry.union this other s).1 =
    map_completion (λ _, length (geometries s)) (UnaryUnionOp_union a) ∧
  journal (Geometry.union this other s).2 =
    Called_UnaryUnionOp_union this :: journal s ∧
  Geometry.difference this other s =
    (Abrupt (TypeError "heckNotGeometryCollection"), s).
Proof.
  intros Hthis Hother Ha Hb.
  rewrite (run_union_call _ _ other _ Hthis).
  repeat split. now apply (difference_nonempty_operands _ _ _ a b).
Qed.

(** C4.  The code departs from the claim: the empty-operand case of
    [intersection], and of [difference] with an empty receiver, calls
    [this.getFactory().createGeometryCollection(null)], and
    GeometryFactory.js gives the factory no such function.  With [E]
    empty, [A.intersection(E)], [E.intersection(A)] and
    [E.difference(A)] each raise a TypeError and leave the store as it
    was; none returns an empty GeometryCollection.  Only
    [A.difference(E)] with [A] not empty does as the claim says: it
    does exactly what [A.clone()] does. *)
Theorem empty_operand_special_case_raises_TypeError s A E a e :
  geometries s !! A = Some a → geometries s !! E = Some e →
  object_isEmpty e = true →
  Geometry.intersection A E s =
    (Abrupt (missing_factory_method "createGeometryCollection" a s), s) ∧
  Geometry.intersection E A s =
    (Abrupt (missing_factory_method "createGeometryCollection" e s), s) ∧
  Geometry.difference E A s =
    (Abrupt (missing_factory_method "createGeometryCollection" e s), s) ∧
  Geometry.difference A E s =
    if object_isEmpty a
    then (Abrupt (missing_factory_method "createGeometryCollection" a s), s)
    else Geometry.clone A s.
Proof.
  intros HA HE Hempty. split; [|split; [|split]].
  - now apply (intersection_empty_argument _ _ _ a e).
  - now apply (intersection_empty_receiver _ _ _ e).
  - now apply (difference_empty_receiver _ _ _ e).
  - destruct (object_isEmpty a) eqn:Ha.
    + now apply (difference_empty_receiver _ _ _ a).
    + now apply (difference_empty_argument _ _ _ a e).
Qed.

(** C6.  The code departs from the claim: for two non-empty operands of
    one variant kind, [compareTo] does not delegate to
    [compareToSameClass] but raises a ReferenceError for the identifier
    [o], so it yields no number, 0 included, for identical operands. *)
Theorem compareTo_same_class_raises_ReferenceError s this other a b comp i :
  geometries s !! this = Some a → geometries s !! other = Some b →
  Geometry.class_sort_index (class_of a) = Some i →
  Geometry.class_sort_index (class_of b) = Some i →
  object_isEmpty a = false → object_isEmpty b = false →
  Geometry.compareTo this other comp s = (Abrupt (ReferenceError "o"), s).
Proof.
  intros Hthis Hother Hi Hj Ha Hb.
  rewrite (compareTo_same_class _ _ _ a b comp i Hthis Hother Hi Hj).
  now rewrite Ha, Hb.
Qed.

(** C10.  The base [clone] returns a new object (a reference no object
    had before) of the base class whose [factory] is the very reference
    the source holds, whose SRID is the one the factory has at the time
    of the call, and whose envelope slot is null whatever the source
    has cached; nothing else in the store changes. *)
Theorem clone_shares_factory_and_has_no_envelope s this o f fo :
  geometries s !! this = Some o →
  factory o = Some f →
  factories s !! f = Some fo →
  ∃ c, Geometry.clone_1261 this s =
         (Normal (length (geometries s)), extended s c) ∧
       geometries s !! length (geometries s) = None ∧
       class_of c = BaseGeometry ∧
       factory c = factory o ∧
       SRID c = factory_SRID fo ∧
       envelope c = None.
Proof.
  intros Hthis Hfac Hf. exists (constructed BaseGeometry None f fo).
  split; [now apply (run_clone_1261 _ _ o)|].
  split; [now apply lookup_ge_None_2|].
  now rewrite Hfac.
Qed.

End OverlayClaims.

(** * The statements on the test doubles *)

Section Instances.
#[local] Existing Instance Stub.domain.
#[local] Existing Instance Stub.collaborators.

(** C2 on the point (5,5), whose cache slot is empty: the envelope is
    computed and stored, and the call ends in the ReferenceError. *)
Lemma getEnvelopeInternal_on_a_point :
  geometries Stub.store !! 0%nat = Some Stub.point ∧
  Geometry.getEnvelopeInternal 0%nat Stub.store =
    (Abrupt (ReferenceError "envelope"), with_cache_filled 0%nat Stub.point Stub.store).
Proof.
  split; [reflexivity|].
  exact (getEnvelopeInternal_raises_ReferenceError Stub.store 0%nat Stub.point eq_refl).
Defined.

Example getEnvelopeInternal_fills_the_cache_of_the_point :
  envelope <$> geometries (Geometry.getEnvelopeInternal 0%nat Stub.store).2 !! 0%nat
    = Some (Some (Stub.MkBox 5 5 5 5)).
Proof. reflexivity. Qed.

(** C9 on the points (5,5) and (100,100), whose envelopes do not
    intersect: none of the three predicates returns false. *)
Lemma touches_crosses_overlaps_on_far_points :
  geometries Stub.store !! 0%nat = Some Stub.point ∧
  computed_envelope Stub.point = Some (Stub.MkBox 5 5 5 5) ∧
  computed_envelope Stub.far_point = Some (Stub.MkBox 100 100 100 100) ∧
  Envelope_intersects (Stub.MkBox 5 5 5 5) (Stub.MkBox 100 100 100 100) = false ∧
  Geometry.touches 0%nat 5%nat Stub.store =
    (Abrupt (ReferenceError "envelope"), with_cache_filled 0%nat Stub.point Stub.store) ∧
  Geometry.crosses 0%nat 5%nat Stub.store =
    (Abrupt (ReferenceError "envelope"), with_cache_filled 0%nat Stub.point Stub.store) ∧
  Geometry.overlaps 0%nat 5%nat Stub.store =
    (Abrupt (ReferenceError "envelope"), with_cache_filled 0%nat Stub.point Stub.store) ∧
  journal (with_cache_filled 0%nat Stub.point Stub.store) = journal Stub.store.
Proof.
  do 4 (split; [reflexivity|]).
  exact (touches_crosses_overlaps_raise Stub.store 0%nat 5%nat Stub.point eq_refl).
Defined.



(** C5 on the rectangle (0,0)-(10,10), whose envelope is cached, and
    the point (5,5) inside it. *)
Lemma intersects_contains_covers_on_a_rectangle :
  geometries Stub.store !! 2%nat = Some Stub.rectangle ∧
  variant_isRectangle Stub.rectangle = true ∧
  Geometry.intersects 2%nat 0%nat Stub.store =
    (Abrupt (ReferenceError "envelope"), with_cache_filled 2%nat Stub.rectangle Stub.store) ∧
  Geometry.contains 2%nat 0%nat Stub.store =
    (Abrupt (ReferenceError "envelope"), with_cache_filled 2%nat Stub.rectangle Stub.store) ∧
  Geometry.covers 2%nat 0%nat Stub.store =
    (Abrupt (ReferenceError "envelope"), with_cache_filled 2%nat Stub.rectangle Stub.store) ∧
  journal (with_cache_filled 2%nat Stub.rectangle Stub.store) = journal Stub.store.
Proof.
  split; [reflexivity|]. split; [reflexivity|].
  exact (intersects_contains_covers_raise Stub.store 2%nat 0%nat Stub.rectangle eq_refl).
Defined.

(** C1 on the empty point as receiver and the point (5,5) as argument. *)
Lemma union_of_empty_point_with_point :
  geometries Stub.store !! 1%nat = Some Stub.empty_point ∧
  Geometry.union 1%nat 0%nat Stub.store =
    (map_completion (λ _, length (geometries Stub.store))
       (UnaryUnionOp_union Stub.empty_point),
     delegated Stub.store (Called_UnaryUnionOp_union 1%nat)
       (UnaryUnionOp_union Stub.empty_point)).
Proof.
  split; [reflexivity|].
  exact (union_call_delegates_to_UnaryUnionOp Stub.store 1%nat 0%nat Stub.empty_point eq_refl).
Defined.

Example union_of_empty_point_with_point_is_no_duplicate :
  object_isEmpty Stub.point = false ∧
  journal (Geometry.union 1%nat 0%nat Stub.store).2 = [Called_UnaryUnionOp_union 1%nat] ∧
  object_isEmpty <$> geometries (Geometry.union 1%nat 0%nat Stub.store).2 !! 7%nat
    = Some true ∧
  ¬ returns_duplicate_of 0%nat Stub.store (Geometry.union 1%nat 0%nat Stub.store).
Proof.
  repeat split. unfold returns_duplicate_of. intros Heq.
  apply (f_equal (λ out, journal out.2)) in Heq. discriminate Heq.
Qed.

(** [symDifference], assigned once, does duplicate the other operand:
    with the empty point as receiver and the bare instance of the base
    class as argument it returns a new object of the base class and
    calls no external algorithm. *)
Example symDifference_of_empty_point_with_bare_instance :
  Geometry.symDifference 1%nat 4%nat Stub.store =
    (Normal 7%nat, extended Stub.store Stub.bare).
Proof. reflexivity. Qed.

Example symDifference_of_point_with_empty_point :
  returns_duplicate_of 0%nat Stub.store
    (Geometry.symDifference 0%nat 1%nat Stub.store) ∧
  Geometry.symDifference 0%nat 1%nat Stub.store =
    (Normal 7%nat, extended Stub.store Stub.point).
Proof. split; reflexivity. Qed.

(** C3 on the collection holding the point, and the point. *)
Lemma union_and_difference_on_a_collection :
  geometries Stub.store !! 3%nat = Some Stub.collection ∧
  geometries Stub.store !! 0%nat = Some Stub.point ∧
  object_isEmpty Stub.collection = false ∧
  object_isEmpty Stub.point = false ∧
  Geometry.is_GeometryCollection_class (class_of Stub.collection) = true ∧
  (Geometry.union 3%nat 0%nat Stub.store).1 =
    map_completion (λ _, length (geometries Stub.store))
      (UnaryUnionOp_union Stub.collection) ∧
  journal (Geometry.union 3%nat 0%nat Stub.store).2 =
    Called_UnaryUnionOp_union 3%nat :: journal Stub.store ∧
  Geometry.difference 3%nat 0%nat Stub.store =
    (Abrupt (TypeError "heckNotGeometryCollection"), Stub.store).
Proof.
  do 5 (split; [reflexivity|]).
  exact (union_and_difference_miss_the_guard Stub.store 3%nat 0%nat
           Stub.collection Stub.point eq_refl eq_refl eq_refl eq_refl).
Defined.

Example union_on_a_collection_returns :
  (Geometry.union 3%nat 0%nat Stub.store).1 = Normal 7%nat.
Proof. reflexivity. Qed.

Example difference_of_two_points_raises_too :
  Geometry.difference 0%nat 5%nat Stub.store =
    (Abrupt (TypeError "heckNotGeometryCollection"), Stub.store).
Proof. reflexivity. Qed.

(** C4 on the point (5,5) and the empty point, both of the one factory
    of the store. *)
Lemma intersection_difference_with_empty_point :
  geometries Stub.store !! 0%nat = Some Stub.point ∧
  geometries Stub.store !! 1%nat = Some Stub.empty_point ∧
  object_isEmpty Stub.empty_point = true ∧
  Geometry.intersection 0%nat 1%nat Stub.store =
    (Abrupt (missing_factory_method "createGeometryCollection"
               Stub.point Stub.store), Stub.store) ∧
  Geometry.intersection 1%nat 0%nat Stub.store =
    (Abrupt (missing_factory_method "createGeometryCollection"
               Stub.empty_point Stub.store), Stub.store) ∧
  Geometry.difference 1%nat 0%nat Stub.store =
    (Abrupt (missing_factory_method "createGeometryCollection"
               Stub.empty_point Stub.store), Stub.store) ∧
  Geometry.difference 0%nat 1%nat Stub.store =
    if object_isEmpty Stub.point
    then (Abrupt (missing_factory_method "createGeometryCollection"
                    Stub.point Stub.store), Stub.store)
    else Geometry.clone 0%nat Stub.store.
Proof.
  do 3 (split; [reflexivity|]).
  exact (empty_operand_special_case_raises_TypeError Stub.store 0%nat 1%nat
           Stub.point Stub.empty_point eq_refl eq_refl eq_refl).
Defined.

Example intersection_with_empty_point_evaluated :
  Geometry.intersection 0%nat 1%nat Stub.store =
    (Abrupt (TypeError "createGeometryCollection"), Stub.store) ∧
  Geometry.intersection 1%nat 0%nat Stub.store =
    (Abrupt (TypeError "createGeometryCollection"), Stub.store) ∧
  Geometry.difference 1%nat 0%nat Stub.store =
    (Abrupt (TypeError "createGeometryCollection"), Stub.store) ∧
  Geometry.difference 0%nat 1%nat Stub.store =
    (Normal 7%nat, extended Stub.store Stub.point).
Proof. repeat split. Qed.

(** C6 on the point (5,5) compared with itself. *)
Lemma compareTo_of_a_point_with_itself :
  geometries Stub.store !! 0%nat = Some Stub.point ∧
  Geometry.class_sort_index (class_of Stub.point) = Some 0 ∧
  object_isEmpty Stub.point = false ∧
  Geometry.compareTo 0%nat 0%nat None Stub.store =
    (Abrupt (ReferenceError "o"), Stub.store).
Proof.
  do 3 (split; [reflexivity|]).
  exact (compareTo_same_class_raises_ReferenceError Stub.store 0%nat 0%nat
           Stub.point Stub.point None 0 eq_refl eq_refl eq_refl eq_refl eq_refl eq_refl).
Defined.

(** C10 on the rectangle, whose envelope is cached. *)
Lemma clone_of_the_rectangle :
  geometries Stub.store !! 2%nat = Some Stub.rectangle ∧
  envelope Stub.rectangle = Some (Stub.MkBox 0 10 0 10) ∧
  factory Stub.rectangle = Some 0%nat ∧
  factories Stub.store !! 0%nat = Some Stub.the_factory ∧
  ∃ c, Geometry.clone_1261 2%nat Stub.store =
         (Normal (length (geometries Stub.store)), extended Stub.store c) ∧
       geometries Stub.store !! length (geometries Stub.store) = None ∧
       class_of c = BaseGeometry ∧
       factory c = factory Stub.rectangle ∧
       SRID c = factory_SRID Stub.the_factory ∧
       envelope c = None.
Proof.
  do 4 (split; [reflexivity|]).
  exact (clone_shares_factory_and_has_no_envelope Stub.store 2%nat Stub.rectangle
           0%nat Stub.the_factory eq_refl eq_refl eq_refl).
Defined.

End Instances.

(** * Further properties of the base class *)

Section Effects.
Context {D : Domain} {C : Collaborators}.
Implicit Types (s : State) (a b o : GeometryObj) (this other g : ref).

(** ** Computations that leave the store alone *)

Lemma leaves_ret {A} (x : A) : leaves_store (ret x).
Proof. intros s. reflexivity. Qed.

Lemma leaves_throw {A} (e : Exception) : leaves_store (throw (A := A) e).
Proof. intros s. reflexivity. Qed.

Lemma leaves_bind {A B} (m : M A) (k : A → M B) :
  leaves_store m → (∀ x, leaves_store (k x)) → leaves_store (bind m k).
Proof.
  intros Hm Hk s. rewrite run_bind. specialize (Hm s).
  destruct (m s) as [[x|e] s']; simpl in Hm; subst s'; [apply Hk | reflexivity].
Qed.

Lemma leaves_deref g : leaves_store (deref g).
Proof. intros s. unfold deref. now destruct (geometries s !! g). Qed.

Lemma leaves_virtual {A} this (base : M A) (override : GeometryObj → M A) :
  leaves_store base → (∀ o, leaves_store (override o)) →
  leaves_store (Geometry.virtual this base override).
Proof.
  intros Hbase Hover. apply leaves_bind; [apply leaves_deref|].
  intros o. now destruct (class_of o).
Qed.

Lemma leaves_isEmpty this : leaves_store (Geometry.isEmpty this).
Proof.
  apply leaves_virtual; [apply leaves_ret | intros o; apply leaves_ret].
Qed.

Lemma leaves_getClassSortIndex this :
  leaves_store (Geometry.getClassSortIndex this).
Proof.
  apply leaves_virtual; [apply leaves_throw|].
  intros o. destruct (Geometry.class_sort_index (class_of o));
    [apply leaves_ret | apply leaves_throw].
Qed.

Lemma leaves_instanceof_GeometryCollection g :
  leaves_store (Geometry.instanceof_GeometryCollection g).
Proof.
  intros s. unfold Geometry.instanceof_GeometryCollection.
  now destruct (geometries s !! g).
Qed.

Lemma leaves_checkNotGeometryCollection g :
  leaves_store (Geometry.checkNotGeometryCollection g).
Proof.
  apply leaves_bind; [apply leaves_instanceof_GeometryCollection|].
  intros [|]; [apply leaves_throw | apply leaves_ret].
Qed.

Lemma leaves_compareTo_body this other (same_class : M Z) :
  leaves_store same_class →
  leaves_store (Geometry.compareTo_body this other same_class).
Proof.
  intros Hsame. unfold Geometry.compareTo_body.
  apply leaves_bind; [apply leaves_getClassSortIndex | intros i].
  apply leaves_bind; [apply leaves_getClassSortIndex | intros j].
  destruct (negb (Z.eqb i j)).
  - apply leaves_bind; [apply leaves_getClassSortIndex | intros i'].
    apply leaves_bind; [apply leaves_getClassSortIndex | intros j'].
    apply leaves_ret.
  - apply leaves_bind; [apply leaves_isEmpty | intros e1].
    apply leaves_bind;
      [destruct e1; [apply leaves_isEmpty | apply leaves_ret] | intros both].
    destruct both; [apply leaves_ret|].
    apply leaves_bind; [apply leaves_isEmpty | intros e1'].
    destruct e1'; [apply leaves_ret|].
    apply leaves_bind; [apply leaves_isEmpty | intros e2].
    destruct e2; [apply leaves_ret | exact Hsame].
Qed.

Lemma leaves_compareToSameClass this (x : ref) comp :
  leaves_store (Geometry.compareToSameClass this x comp).
Proof.
  apply leaves_virtual; [intros s; reflexivity | intros a].
  apply leaves_bind; [apply leaves_deref | intros b; apply leaves_ret].
Qed.

Lemma leaves_compareTo this other comp :
  leaves_store (Geometry.compareTo this other comp).
Proof.
  rewrite run_compareTo. apply leaves_compareTo_body.
  apply leaves_bind; [apply leaves_throw | intros x].
  apply leaves_compareToSameClass.
Qed.

End Effects.

Section EnvelopeCache.
Context {D : Domain} {C : Collaborators} {A : Algorithms}.
Implicit Types (s : State) (a b o : GeometryObj) (this other g : ref).

Lemma with_envelope_same o :
  with_envelope (envelope o) o = o.
Proof. now destruct o. Qed.

Lemma store_eta s :
  {| geometries := geometries s; factories := factories s;
     journal := journal s |} = s.
Proof. now destruct s. Qed.

Lemma lookup_with_cache_filled s this o :
  geometries s !! this = Some o →
  geometries (with_cache_filled this o s) !! this =
    Some (match envelope o with
          | Some _ => o
          | None => with_envelope (computed_envelope o) o
          end).
Proof.
  intros Hthis. unfold with_cache_filled.
  destruct (envelope o); [exact Hthis|]. simpl.
  apply list_lookup_insert_eq. now apply lookup_lt_Some in Hthis.
Qed.

(** X1.  A call of [getEnvelopeInternal] touches nothing but the
    envelope slot of its receiver: the store keeps its objects and its
    factories, no external algorithm is called, every other object is
    as before, and the receiver keeps its class, factory, SRID and
    internal data; its slot holds what it held, or, if it was null,
    what [computeEnvelopeInternal] answers. *)
Theorem getEnvelopeInternal_touches_only_the_cache s this o :
  geometries s !! this = Some o →
  let s' := (Geometry.getEnvelopeInternal this s).2 in
  length (geometries s') = length (geometries s) ∧
  factories s' = factories s ∧
  journal s' = journal s ∧
  (∀ g, g ≠ this → geometries s' !! g = geometries s !! g) ∧
  ∃ o', geometries s' !! this = Some o' ∧
        class_of o' = class_of o ∧ factory o' = factory o ∧
        SRID o' = SRID o ∧ shape o' = shape o ∧
        envelope o' = match envelope o with
                      | Some e => Some e
                      | None => computed_envelope o
                      end.
Proof.
  intros Hthis s'. subst s'.
  rewrite (run_getEnvelopeInternal _ _ _ Hthis). simpl.
  pose proof (lookup_with_cache_filled _ _ _ Hthis) as Hnew.
  unfold with_cache_filled in *. destruct (envelope o) as [e|] eqn:He.
  - repeat split; trivial. exists o. now rewrite He.
  - simpl in *. repeat split.
    + apply length_insert.
    + intros g Hg. now apply list_lookup_insert_ne.
    + eexists. split; [exact Hnew|]. now repeat split.
Qed.

(** X2.  The cache is filled once: a second call of
    [getEnvelopeInternal] on the same receiver hands back exactly the
    store the first call left. *)
Theorem getEnvelopeInternal_again_changes_nothing s this o :
  geometries s !! this = Some o →
  let s' := (Geometry.getEnvelopeInternal this s).2 in
  Geometry.getEnvelopeInternal this s' =
    (Abrupt (ReferenceError "envelope"), s').
Proof.
  intros Hthis s'. subst s'.
  rewrite (run_getEnvelopeInternal _ _ _ Hthis). simpl.
  pose proof (lookup_with_cache_filled _ _ _ Hthis) as Hnew.
  rewrite (run_getEnvelopeInternal _ _ _ Hnew). f_equal.
  destruct (envelope o) as [e|] eqn:He.
  - unfold with_cache_filled. now rewrite He.
  - destruct (computed_envelope o) as [e|] eqn:Hc.
    + reflexivity.
    + assert (Hsame : with_envelope None o = o)
        by (rewrite <- He; apply with_envelope_same).
      rewrite Hsame. unfold with_cache_filled at 1. rewrite He, Hc, Hsame.
      unfold with_cache_filled. rewrite He, Hc, Hsame. simpl.
      now rewrite list_insert_insert_eq.
Qed.

(** X3.  [isWithinDistance] and [equals] end in the ReferenceError of
    [getEnvelopeInternal] after filling the cache of the receiver, and
    so does [getEnvelope] when the factory of the receiver is an
    object; with a null factory [getEnvelope] raises a TypeError before
    it looks at the envelope.  None of them calls an external
    algorithm. *)
Theorem envelope_based_methods_raise s this g distance o :
  geometries s !! this = Some o →
  GeometryRest.isWithinDistance this g distance s =
    (Abrupt (ReferenceError "envelope"), with_cache_filled this o s) ∧
  GeometryRest.equals this g s =
    (Abrupt (ReferenceError "envelope"), with_cache_filled this o s) ∧
  GeometryRest.getEnvelope this s =
    match factory o with
    | None => (Abrupt (TypeError "null"), s)
    | Some f =>
        match factories s !! f with
        | Some _ =>
            (Abrupt (ReferenceError "envelope"), with_cache_filled this o s)
        | None => (Abrupt (TypeError "undefined"), s)
        end
    end.
Proof.
  intros Hthis. split; [|split].
  - unfold GeometryRest.isWithinDistance.
    apply (run_after_getEnvelopeInternal _ _ _ _ Hthis).
  - unfold GeometryRest.equals.
    apply (run_after_getEnvelopeInternal _ _ _ _ Hthis).
  - unfold GeometryRest.getEnvelope.
    rewrite run_bind, (run_getFactory _ _ _ Hthis), run_bind.
    unfold deref_factory at 1.
    destruct (factory o) as [f|]; [|reflexivity].
    destruct (factories s !! f); [|reflexivity].
    apply (run_after_getEnvelopeInternal _ _ _ _ Hthis).
Qed.

(** X4.  [disjoint] ends as [intersects] does, in the ReferenceError of
    [getEnvelopeInternal] on the receiver; [within] and [coveredBy]
    call the method of their argument, so they end in that error after
    filling the cache of the argument, not of the receiver. *)
Theorem disjoint_within_coveredBy_raise s this g a b :
  geometries s !! this = Some a →
  geometries s !! g = Some b →
  Geometry.disjoint this g s =
    (Abrupt (ReferenceError "envelope"), with_cache_filled this a s) ∧
  Geometry.within this g s =
    (Abrupt (ReferenceError "envelope"), with_cache_filled g b s) ∧
  Geometry.coveredBy this g s =
    (Abrupt (ReferenceError "envelope"), with_cache_filled g b s).
Proof.
  intros Hthis Hg. split; [|split].
  - unfold Geometry.disjoint, Geometry.intersects.
    rewrite run_bind, (run_after_getEnvelopeInternal _ _ _ _ Hthis).
    reflexivity.
  - unfold Geometry.within, Geometry.contains.
    apply (run_after_getEnvelopeInternal _ _ _ _ Hg).
  - unfold Geometry.coveredBy, Geometry.covers.
    apply (run_after_getEnvelopeInternal _ _ _ _ Hg).
Qed.

(** X5.  [getCentroid] and [getInteriorPoint] never return: on every
    receiver and store they raise a ReferenceError, for [isEmpty] and
    for [getDimension], and leave the store as it was; no centroid or
    interior point is computed. *)
Theorem getCentroid_getInteriorPoint_raise s this :
  GeometryRest.getCentroid this s =
    (Abrupt (ReferenceError "isEmpty"), s) ∧
  GeometryRest.getInteriorPoint this s =
    (Abrupt (ReferenceError "getDimension"), s).
Proof. split; reflexivity. Qed.

End EnvelopeCache.

Section Guards.
Context {D : Domain} {C : Collaborators} {A : Algorithms}.
Implicit Types (s : State) (a b o : GeometryObj) (this other g : ref).

Lemma run_call_RelateOp_relate s this g a b :
  geometries s !! this = Some a → geometries s !! g = Some b →
  Geometry.call_RelateOp_relate this g s =
    (RelateOp_relate a b, noted s (Called_RelateOp_relate this g)).
Proof.
  intros Hthis Hg.
  unfold Geometry.call_RelateOp_relate, bind, record, deref, complete, noted.
  simpl. rewrite Hthis. simpl. rewrite Hg. now destruct (RelateOp_relate a b).
Qed.

Lemma run_call_overlayOp s this other a b opCode :
  geometries s !! this = Some a → geometries s !! other = Some b →
  Geometry.call_SnapIfNeededOverlayOp_overlayOp this other opCode s =
    (map_completion (λ _, length (geometries s))
       (SnapIfNeededOverlayOp_overlayOp a b opCode),
     delegated s (Called_SnapIfNeededOverlayOp_overlayOp this other opCode)
       (SnapIfNeededOverlayOp_overlayOp a b opCode)).
Proof.
  intros Hthis Hother.
  unfold Geometry.call_SnapIfNeededOverlayOp_overlayOp, bind, record, deref,
    complete, alloc, delegated.
  simpl. rewrite Hthis. simpl. rewrite Hother.
  now destruct (SnapIfNeededOverlayOp_overlayOp a b opCode).
Qed.

Lemma guards_pass s this other a b {R} (k : M R) :
  geometries s !! this = Some a → geometries s !! other = Some b →
  Geometry.is_GeometryCollection_class (class_of a) = false →
  Geometry.is_GeometryCollection_class (class_of b) = false →
  bind (Geometry.checkNotGeometryCollection this)
    (λ _, bind (Geometry.checkNotGeometryCollection other) (λ _, k)) s = k s.
Proof.
  intros Hthis Hother Ha Hb.
  rewrite run_bind, (run_checkNotGeometryCollection _ _ _ Hthis), Ha.
  now rewrite run_bind, (run_checkNotGeometryCollection _ _ _ Hother), Hb.
Qed.

Lemma run_relate s this g a b :
  geometries s !! this = Some a → geometries s !! g = Some b →
  Geometry.relate this g s =
    if Geometry.is_GeometryCollection_class (class_of a)
       || Geometry.is_GeometryCollection_class (class_of b)
    then (Abrupt (Error "This method does not support GeometryCollection"), s)
    else (RelateOp_relate a b, noted s (Called_RelateOp_relate this g)).
Proof.
  intros Hthis Hg.
  change (Geometry.relate this g) with (Geometry.relate_883 this g).
  unfold Geometry.relate_883.
  destruct (Geometry.is_GeometryCollection_class (class_of a)) eqn:Ha.
  - simpl. rewrite run_bind, (run_checkNotGeometryCollection _ _ _ Hthis).
    now rewrite Ha.
  - destruct (Geometry.is_GeometryCollection_class (class_of b)) eqn:Hb.
    + simpl. rewrite run_bind, (run_checkNotGeometryCollection _ _ _ Hthis), Ha.
      rewrite run_bind, (run_checkNotGeometryCollection _ _ _ Hg).
      now rewrite Hb.
    + simpl. rewrite (guards_pass _ _ _ a b _ Hthis Hg Ha Hb).
      now apply run_call_RelateOp_relate.
Qed.

(** X6.  [relate] passes its operands to [RelateOp.relate] exactly when
    neither is an instance of GeometryCollection: then it notes one
    call, completes as that algorithm does and changes no object;
    otherwise it raises the unsupported-GeometryCollection error and
    calls nothing. *)
Theorem relate_guards_then_delegates s this g a b :
  geometries s !! this = Some a → geometries s !! g = Some b →
  Geometry.relate this g s =
    if Geometry.is_GeometryCollection_class (class_of a)
       || Geometry.is_GeometryCollection_class (class_of b)
    then (Abrupt (Error "This method does not support GeometryCollection"), s)
    else (RelateOp_relate a b, noted s (Called_RelateOp_relate this g)).
Proof. apply run_relate. Qed.

(** X7.  A call [this.relate(g, intersectionPattern)] does what
    [this.relate(g)] does: the pattern is dropped, [matches] is never
    asked, and what comes back is the matrix, not a boolean. *)
Theorem relate_with_pattern_returns_the_matrix this g intersectionPattern s :
  GeometryRest.relate_with_pattern this g intersectionPattern s =
    (map_completion inl (Geometry.relate this g s).1,
     (Geometry.relate this g s).2).
Proof.
  change (GeometryRest.relate_with_pattern this g intersectionPattern)
    with (bind (Geometry.relate_883 this g) (λ im, ret (inl (B := bool) im))).
  change (Geometry.relate this g) with (Geometry.relate_883 this g).
  rewrite run_bind.
  now destruct (Geometry.relate_883 this g s) as [[im|e] s'].
Qed.

(** X8.  [checkNotGeometryCollection] never changes the store and raises
    its error exactly for an object that is an instance of
    GeometryCollection, a variant extending GeometryCollection
    included; that is exactly when [isGeometryCollection] answers
    true.  A reference to no object passes. *)
Theorem checkNotGeometryCollection_rejects_instances s g :
  Geometry.checkNotGeometryCollection g s =
    match geometries s !! g with
    | Some o =>
        if Geometry.is_GeometryCollection_class (class_of o)
        then (Abrupt (Error "This method does not support GeometryCollection"), s)
        else (Normal (), s)
    | None => (Normal (), s)
    end ∧
  (Geometry.checkNotGeometryCollection g s = (Normal (), s) ↔
   Geometry.isGeometryCollection g s = (Normal false, s)).
Proof.
  unfold Geometry.checkNotGeometryCollection, Geometry.isGeometryCollection,
    bind, Geometry.instanceof_GeometryCollection.
  destruct (geometries s !! g) as [o|]; [|now split].
  destruct (Geometry.is_GeometryCollection_class (class_of o));
    split; try reflexivity; split; intros Heq; discriminate Heq || reflexivity.
Qed.

(** X9.  On two non-empty operands none of which is an instance of
    GeometryCollection, [intersection] and [symDifference] call the
    overlay once, with their own tag, and return what it built as a new
    object (or fail as it fails); the objects that were there are
    untouched. *)
Theorem intersection_symDifference_delegate s this other a b :
  geometries s !! this = Some a → geometries s !! other = Some b →
  object_isEmpty a = false → object_isEmpty b = false →
  Geometry.is_GeometryCollection_class (class_of a) = false →
  Geometry.is_GeometryCollection_class (class_of b) = false →
  Geometry.intersection this other s =
    (map_completion (λ _, length (geometries s))
       (SnapIfNeededOverlayOp_overlayOp a b INTERSECTION),
     delegated s (Called_SnapIfNeededOverlayOp_overlayOp this other INTERSECTION)
       (SnapIfNeededOverlayOp_overlayOp a b INTERSECTION)) ∧
  Geometry.symDifference this other s =
    (map_completion (λ _, length (geometries s))
       (SnapIfNeededOverlayOp_overlayOp a b SYMDIFFERENCE),
     delegated s (Called_SnapIfNeededOverlayOp_overlayOp this other SYMDIFFERENCE)
       (SnapIfNeededOverlayOp_overlayOp a b SYMDIFFERENCE)).
Proof.
  intros Hthis Hother Ha Hb Hca Hcb. split.
  - unfold Geometry.intersection.
    rewrite run_bind, (run_isEmpty _ _ _ Hthis), Ha.
    rewrite run_bind, (run_isEmpty _ _ _ Hother), Hb.
    rewrite run_bind. destruct (run_isGeometryCollection s this) as [v ->].
    rewrite (guards_pass _ _ _ a b _ Hthis Hother Hca Hcb).
    now apply run_call_overlayOp.
  - unfold Geometry.symDifference.
    rewrite run_bind, (run_isEmpty _ _ _ Hthis), Ha.
    rewrite run_bind, (run_isEmpty _ _ _ Hother), Hb.
    rewrite (guards_pass _ _ _ a b _ Hthis Hother Hca Hcb).
    now apply run_call_overlayOp.
Qed.

(** X10.  [isSimple] refuses an instance of GeometryCollection with the
    unsupported-GeometryCollection error and otherwise answers what
    [IsSimpleOp] answers; [isValid] has no such guard and answers what
    [IsValidOp] answers for every receiver.  Neither changes the
    store. *)
Theorem isSimple_guards_isValid_does_not s this o :
  geometries s !! this = Some o →
  GeometryRest.isSimple this s =
    (if Geometry.is_GeometryCollection_class (class_of o)
     then Abrupt (Error "This method does not support GeometryCollection")
     else IsSimpleOp_isSimple o, s) ∧
  GeometryRest.isValid this s = (IsValidOp_isValid o, s).
Proof.
  intros Hthis. split.
  - unfold GeometryRest.isSimple.
    rewrite run_bind, (run_checkNotGeometryCollection _ _ _ Hthis).
    destruct (Geometry.is_GeometryCollection_class (class_of o)); [reflexivity|].
    rewrite run_bind, (run_deref _ _ _ Hthis). reflexivity.
  - unfold GeometryRest.isValid.
    rewrite run_bind, (run_deref _ _ _ Hthis). reflexivity.
Qed.

End Guards.

Section Ordering.
Context {D : Domain} {C : Collaborators}.
Implicit Types (s : State) (a b c o : GeometryObj) (this other g : ref).

(** What [compareTo] does on two variants, by their sort indices and
    emptiness. *)
Lemma run_compareTo_variants s this other a b comp i j :
  geometries s !! this = Some a → geometries s !! other = Some b →
  Geometry.class_sort_index (class_of a) = Some i →
  Geometry.class_sort_index (class_of b) = Some j →
  Geometry.compareTo this other comp s =
    if Z.eqb i j then
      match object_isEmpty a, object_isEmpty b with
      | true, true => (Normal 0, s)
      | true, false => (Normal (-1), s)
      | false, true => (Normal 1, s)
      | false, false => (Abrupt (ReferenceError "o"), s)
      end
    else (Normal (i - j), s).
Proof.
  intros Hthis Hother Hi Hj. destruct (Z.eqb_spec i j) as [->|Hij].
  - exact (compareTo_same_class _ _ _ a b comp j Hthis Hother Hi Hj).
  - exact (compareTo_different_classes _ _ _ a b comp i j Hthis Hother Hi Hj Hij).
Qed.

(** X11.  [compareTo] reads the store and never writes it: whatever the
    operands and however the call completes, the store afterwards is
    the store before, and no external algorithm has been called. *)
Theorem compareTo_never_changes_the_store this other comp s :
  (Geometry.compareTo this other comp s).2 = s.
Proof. apply leaves_compareTo. Qed.

(** X12.  Wherever [compareTo] returns it is antisymmetric: if
    [a.compareTo(b)] returns [c] then [b.compareTo(a)] returns [-c],
    with or without a comparator. *)
Theorem compareTo_antisymmetric s this other a b comp comp' i j v s' :
  geometries s !! this = Some a → geometries s !! other = Some b →
  Geometry.class_sort_index (class_of a) = Some i →
  Geometry.class_sort_index (class_of b) = Some j →
  Geometry.compareTo this other comp s = (Normal v, s') →
  Geometry.compareTo other this comp' s = (Normal (- v), s).
Proof.
  intros Hthis Hother Hi Hj.
  rewrite (run_compareTo_variants _ _ _ a b comp i j Hthis Hother Hi Hj).
  rewrite (run_compareTo_variants _ _ _ b a comp' j i Hother Hthis Hj Hi).
  rewrite (Z.eqb_sym j i).
  destruct (Z.eqb i j).
  - destruct (object_isEmpty a), (object_isEmpty b); intros Heq;
      inversion Heq; reflexivity.
  - intros Heq. inversion Heq. f_equal. f_equal. lia.
Qed.

(** X13.  On two variants [compareTo] returns 0 exactly when they are of
    one kind and both empty; two non-empty geometries are never found
    equal. *)
Theorem compareTo_zero_iff_same_kind_and_both_empty s this other a b comp i j :
  geometries s !! this = Some a → geometries s !! other = Some b →
  Geometry.class_sort_index (class_of a) = Some i →
  Geometry.class_sort_index (class_of b) = Some j →
  Geometry.compareTo this other comp s = (Normal 0, s) ↔
  i = j ∧ object_isEmpty a = true ∧ object_isEmpty b = true.
Proof.
  intros Hthis Hother Hi Hj.
  rewrite (run_compareTo_variants _ _ _ a b comp i j Hthis Hother Hi Hj).
  destruct (Z.eqb_spec i j) as [->|Hij].
  - destruct (object_isEmpty a), (object_isEmpty b); split;
      try (intros Heq; discriminate Heq);
      try (intros (_ & Ha & Hb); discriminate);
      tauto.
  - split.
    + intros Heq. inversion Heq. lia.
    + intros (Heq & _). contradiction.
Qed.

(** X14.  Wherever [compareTo] returns it is transitive: if
    [a.compareTo(b)] and [b.compareTo(c)] both return a negative
    number, so does [a.compareTo(c)]. *)
Theorem compareTo_transitive s x y z a b c comp i j k u v su sv :
  geometries s !! x = Some a → geometries s !! y = Some b →
  geometries s !! z = Some c →
  Geometry.class_sort_index (class_of a) = Some i →
  Geometry.class_sort_index (class_of b) = Some j →
  Geometry.class_sort_index (class_of c) = Some k →
  Geometry.compareTo x y comp s = (Normal u, su) → u < 0 →
  Geometry.compareTo y z comp s = (Normal v, sv) → v < 0 →
  ∃ w, Geometry.compareTo x z comp s = (Normal w, s) ∧ w < 0.
Proof.
  intros Hx Hy Hz Hi Hj Hk.
  rewrite (run_compareTo_variants _ _ _ a b comp i j Hx Hy Hi Hj).
  rewrite (run_compareTo_variants _ _ _ b c comp j k Hy Hz Hj Hk).
  rewrite (run_compareTo_variants _ _ _ a c comp i k Hx Hz Hi Hk).
  destruct (Z.eqb_spec i j) as [->|Hij], (Z.eqb_spec j k) as [->|Hjk].
  - destruct (object_isEmpty a), (object_isEmpty b), (object_isEmpty c);
      intros Hu Hneg Hv Hneg'; inversion Hu; inversion Hv; subst; try lia.
  - destruct (Z.eqb_spec j k) as [|_]; [contradiction|].
    destruct (object_isEmpty a), (object_isEmpty b);
      intros Hu Hneg Hv Hneg'; inversion Hu; inversion Hv; subst; try lia;
      eexists; (split; [reflexivity | lia]).
  - destruct (Z.eqb_spec i k) as [|_]; [contradiction|].
    destruct (object_isEmpty b), (object_isEmpty c);
      intros Hu Hneg Hv Hneg'; inversion Hu; inversion Hv; subst; try lia;
      eexists; (split; [reflexivity | lia]).
  - intros Hu Hneg Hv Hneg'. inversion Hu; inversion Hv; subst.
    destruct (Z.eqb_spec i k) as [->|_]; [lia|].
    eexists. split; [reflexivity | lia].
Qed.

(** X15.  An instance of the base class cannot be compared: the
    prototype has no [getClassSortIndex], so [compareTo] on such a
    receiver raises a TypeError before it looks at the argument. *)
Theorem compareTo_of_base_instance_raises s this other o comp :
  geometries s !! this = Some o →
  class_of o = BaseGeometry →
  Geometry.compareTo this other comp s =
    (Abrupt (TypeError "getClassSortIndex"), s).
Proof.
  intros Hthis Hbase. rewrite run_compareTo.
  unfold Geometry.compareTo_1364, Geometry.compareTo_body.
  rewrite run_bind. unfold Geometry.getClassSortIndex at 1.
  now rewrite (run_virtual _ _ _ _ _ Hthis), Hbase.
Qed.

End Ordering.

Section Collections.
Context {D : Domain} {C : Collaborators} {A : Algorithms}.
Implicit Types (s : State) (o : GeometryObj).

(** ** compare *)

Section Elements.
Context {X : Type} (cmp : X → X → M Z).

(** Elements found equal are passed over. *)
Lemma compare_skips_equal_elements s (p q a b : list X) :
  Forall2 (equal_at cmp s) p q →
  GeometryRest.compare_elements cmp (p ++ a) (q ++ b) s =
    GeometryRest.compare_elements cmp a b s.
Proof.
  induction 1 as [|x y p q Hxy _ IH]; [reflexivity|].
  simpl. rewrite run_bind. unfold equal_at in Hxy. rewrite Hxy. exact IH.
Qed.

(** X16.  When the elements of one collection are found equal, in
    order, to the first elements of the other, [compare] decides by
    what is left over: 0 if nothing is, 1 if the first collection goes
    on, -1 if the second does. *)
Theorem compare_of_a_common_prefix_goes_by_length s (p q : list X) x rest :
  Forall2 (equal_at cmp s) p q →
  GeometryRest.compare_elements cmp p q s = (Normal 0, s) ∧
  GeometryRest.compare_elements cmp (p ++ x :: rest) q s = (Normal 1, s) ∧
  GeometryRest.compare_elements cmp p (q ++ x :: rest) s = (Normal (-1), s).
Proof.
  intros Heq.
  pose proof (compare_skips_equal_elements s p q [] [] Heq) as H0.
  pose proof (compare_skips_equal_elements s p q (x :: rest) [] Heq) as H1.
  pose proof (compare_skips_equal_elements s p q [] (x :: rest) Heq) as H2.
  rewrite !app_nil_r in *. now rewrite H0, H1, H2.
Qed.

(** X17.  [compare] completes as the first comparison that does not
    return 0: it returns that number, or raises what that comparison
    raises, and looks at no later element. *)
Theorem compare_ends_at_the_first_difference s (p q : list X) x y a b c s' :
  Forall2 (equal_at cmp s) p q →
  cmp x y s = (c, s') →
  c ≠ Normal 0 →
  GeometryRest.compare_elements cmp (p ++ x :: a) (q ++ y :: b) s = (c, s').
Proof.
  intros Heq Hxy Hc. rewrite (compare_skips_equal_elements s p q _ _ Heq).
  simpl. rewrite run_bind, Hxy. destruct c as [v|e]; [|reflexivity].
  destruct (Z.eqb_spec v 0) as [->|_]; [contradiction | reflexivity].
Qed.

End Elements.

(** X18.  [compare] on collections of geometries reads the store and
    never writes it, however long the collections and however the call
    completes. *)
Theorem compare_never_changes_the_store (a b : list ref) s :
  (GeometryRest.compare a b s).2 = s.
Proof.
  unfold GeometryRest.compare. revert b s.
  induction a as [|x a IH]; intros [|y b] s; try reflexivity.
  simpl. rewrite run_bind.
  pose proof (leaves_compareTo x y None s) as Hs.
  destruct (Geometry.compareTo x y None s) as [[v|e] s']; simpl in Hs; subst s';
    [|reflexivity].
  destruct (negb (Z.eqb v 0)); [reflexivity | apply IH].
Qed.

(** ** Construction *)

(** X19.  A geometry built by the constructor for a factory answers
    that very factory to [getFactory] and the SRID the factory has at
    that time to [getSRID]; it is a new object, empty, and the objects
    that were there are untouched.  Built for a null factory, the
    constructor raises a TypeError. *)
Theorem constructor_then_accessors s f fo :
  factories s !! f = Some fo →
  let n := length (geometries s) in
  ∃ s', GeometryRest.Geometry_constructor (Some f) s = (Normal n, s') ∧
        geometries s !! n = None ∧
        (∀ g o, geometries s !! g = Some o → geometries s' !! g = Some o) ∧
        Geometry.getFactory n s' = (Normal (Some f), s') ∧
        Geometry.getSRID n s' = (Normal (factory_SRID fo), s') ∧
        Geometry.isEmpty n s' = (Normal true, s') ∧
        (GeometryRest.Geometry_constructor None s).1 = Abrupt (TypeError "null").
Proof.
  intros Hf n. subst n. eexists. split.
  { unfold GeometryRest.Geometry_constructor.
    apply (run_Geometry_new _ _ _ _ _ Hf). }
  assert (Hnew : geometries (extended s (constructed BaseGeometry None f fo))
                   !! length (geometries s)
                 = Some (constructed BaseGeometry None f fo))
    by apply (lookup_snoc (geometries s)).
  split; [now apply lookup_ge_None_2|].
  split; [intros g o Hg; simpl; now apply lookup_app_l_Some|].
  split; [now rewrite (run_getFactory _ _ _ Hnew)|].
  split.
  { unfold Geometry.getSRID. now rewrite run_bind, (run_deref _ _ _ Hnew). }
  split; [now rewrite (run_isEmpty _ _ _ Hnew)|].
  unfold GeometryRest.Geometry_constructor, Geometry_new,
    GeometryFactory_getSRID, deref_factory, bind, alloc, update.
  simpl. now rewrite (lookup_snoc (geometries s)).
Qed.

(** X20.  A factory fresh from its constructor has no SRID: a geometry
    built for it answers null to [getSRID], and the new factory to
    [getFactory]. *)
Theorem geometry_of_a_new_factory_has_null_SRID s :
  (bind GeometryRest.GeometryFactory_new
     (λ f, bind (GeometryRest.Geometry_constructor (Some f))
             (λ g, Geometry.getSRID g)) s).1 = Normal None ∧
  (bind GeometryRest.GeometryFactory_new
     (λ f, bind (GeometryRest.Geometry_constructor (Some f))
             (λ g, Geometry.getFactory g)) s).1
    = Normal (Some (length (factories s))).
Proof.
  set (s1 := {| geometries := geometries s;
                factories := factories s ++ [ {| factory_SRID := None |} ];
                journal := journal s |}).
  assert (Hf : factories s1 !! length (factories s)
               = Some {| factory_SRID := None |})
    by apply (lookup_snoc (factories s)).
  pose proof (run_Geometry_new s1 BaseGeometry None _ _ Hf) as Hnew.
  assert (Hg : geometries (extended s1 (constructed BaseGeometry None
                  (length (factories s)) {| factory_SRID := None |}))
                 !! length (geometries s1)
               = Some (constructed BaseGeometry None (length (factories s))
                         {| factory_SRID := None |}))
    by apply (lookup_snoc (geometries s1)).
  split.
  - rewrite run_bind. unfold GeometryRest.GeometryFactory_new at 1.
    fold s1. rewrite run_bind. unfold GeometryRest.Geometry_constructor.
    rewrite Hnew. unfold Geometry.getSRID.
    now rewrite run_bind, (run_deref _ _ _ Hg).
  - rewrite run_bind. unfold GeometryRest.GeometryFactory_new at 1.
    fold s1. rewrite run_bind. unfold GeometryRest.Geometry_constructor.
    rewrite Hnew. now rewrite (run_getFactory _ _ _ Hg).
Qed.

End Collections.

Section HoldingParts.
Context {D : Domain} {C : Collaborators}.
Implicit Types (s : State) (a b o : GeometryObj) (this other g : ref).

(** X22.  [symDifference] with an empty operand does exactly what
    [clone] of the other operand does, in either order, and calls no
    overlay itself; with both operands empty it clones the argument. *)
Theorem symDifference_with_an_empty_operand_clones_the_other
    s this other a b :
  geometries s !! this = Some a → geometries s !! other = Some b →
  object_isEmpty a = true ∨ object_isEmpty b = true →
  Geometry.symDifference this other s =
    if object_isEmpty a then Geometry.clone other s
    else Geometry.clone this s.
Proof.
  intros Hthis Hother Hempty.
  destruct (object_isEmpty a) eqn:Ha.
  - now apply (symDifference_empty_receiver _ _ _ a).
  - destruct Hempty as [Hcontra|Hb]; [discriminate|].
    now apply (symDifference_empty_argument _ _ _ a b).
Qed.

(** X23.  On two non-empty operands one of which is an instance of
    GeometryCollection, [intersection] and [symDifference] raise the
    unsupported-GeometryCollection error, leave the store as it was and
    call no overlay. *)
Theorem intersection_symDifference_reject_GeometryCollection
    s this other a b :
  geometries s !! this = Some a → geometries s !! other = Some b →
  object_isEmpty a = false → object_isEmpty b = false →
  Geometry.is_GeometryCollection_class (class_of a) = true ∨
  Geometry.is_GeometryCollection_class (class_of b) = true →
  Geometry.intersection this other s =
    (Abrupt (Error "This method does not support GeometryCollection"), s) ∧
  Geometry.symDifference this other s =
    (Abrupt (Error "This method does not support GeometryCollection"), s).
Proof.
  intros Hthis Hother Ha Hb Hgc. split.
  - now apply (intersection_rejects_GeometryCollection _ _ _ a b).
  - now apply (symDifference_rejects_GeometryCollection _ _ _ a b).
Qed.

(** X24.  On two variants [compareTo] orders by kind first: for kinds
    with different sort indices it returns the difference of the
    indices; for one kind it returns 0 when both operands are empty,
    -1 when only the receiver is, 1 when only the argument is.  The
    comparator, if one is passed, plays no part in any of this. *)
Theorem compareTo_orders_by_kind_then_emptiness
    s this other a b comp i j :
  geometries s !! this = Some a → geometries s !! other = Some b →
  Geometry.class_sort_index (class_of a) = Some i →
  Geometry.class_sort_index (class_of b) = Some j →
  i ≠ j ∨ object_isEmpty a = true ∨ object_isEmpty b = true →
  Geometry.compareTo this other comp s =
    (Normal (if Z.eqb i j then
               match object_isEmpty a, object_isEmpty b with
               | true, true => 0
               | true, false => -1
               | _, _ => 1
               end
             else i - j), s).
Proof.
  intros Hthis Hother Hi Hj Hcase.
  rewrite (run_compareTo_variants _ _ _ a b comp i j Hthis Hother Hi Hj).
  destruct (Z.eqb_spec i j) as [Heq|_]; [|reflexivity].
  destruct (object_isEmpty a), (object_isEmpty b); try reflexivity.
  destruct Hcase as [Hne|[Hc|Hc]]; [contradiction | discriminate..].
Qed.

End HoldingParts.

(** * The further statements on the test doubles *)

Section FurtherInstances.
#[local] Existing Instance Stub.domain.
#[local] Existing Instance Stub.collaborators.
#[local] Existing Instance StubRest.algorithms.

(** X1 on the point (5,5). *)
Lemma getEnvelopeInternal_touches_only_the_cache_of_the_point :
  geometries StubRest.store !! 0%nat = Some Stub.point ∧
  let s' := (Geometry.getEnvelopeInternal 0%nat StubRest.store).2 in
  length (geometries s') = length (geometries StubRest.store) ∧
  factories s' = factories StubRest.store ∧
  journal s' = journal StubRest.store ∧
  (∀ g, g ≠ 0%nat → geometries s' !! g = geometries StubRest.store !! g) ∧
  ∃ o', geometries s' !! 0%nat = Some o' ∧
        class_of o' = class_of Stub.point ∧ factory o' = factory Stub.point ∧
        SRID o' = SRID Stub.point ∧ shape o' = shape Stub.point ∧
        envelope o' = match envelope Stub.point with
                      | Some e => Some e
                      | None => computed_envelope Stub.point
                      end.
Proof.
  split; [reflexivity|].
  exact (getEnvelopeInternal_touches_only_the_cache StubRest.store 0%nat
           Stub.point eq_refl).
Defined.

(** X2 on the point (5,5). *)
Lemma getEnvelopeInternal_again_on_the_point :
  geometries StubRest.store !! 0%nat = Some Stub.point ∧
  let s' := (Geometry.getEnvelopeInternal 0%nat StubRest.store).2 in
  Geometry.getEnvelopeInternal 0%nat s' =
    (Abrupt (ReferenceError "envelope"), s').
Proof.
  split; [reflexivity|].
  exact (getEnvelopeInternal_again_changes_nothing StubRest.store 0%nat
           Stub.point eq_refl).
Defined.

(** X3 on the point (5,5), the far point and the distance 10. *)
Lemma envelope_based_methods_on_the_point :
  geometries StubRest.store !! 0%nat = Some Stub.point ∧
  GeometryRest.isWithinDistance 0%nat 5%nat 10 StubRest.store =
    (Abrupt (ReferenceError "envelope"),
     with_cache_filled 0%nat Stub.point StubRest.store) ∧
  GeometryRest.equals 0%nat 5%nat StubRest.store =
    (Abrupt (ReferenceError "envelope"),
     with_cache_filled 0%nat Stub.point StubRest.store) ∧
  GeometryRest.getEnvelope 0%nat StubRest.store =
    match factory Stub.point with
    | None => (Abrupt (TypeError "null"), StubRest.store)
    | Some f =>
        match factories StubRest.store !! f with
        | Some _ =>
            (Abrupt (ReferenceError "envelope"),
             with_cache_filled 0%nat Stub.point StubRest.store)
        | None => (Abrupt (TypeError "undefined"), StubRest.store)
        end
    end.
Proof.
  split; [reflexivity|].
  exact (envelope_based_methods_raise StubRest.store 0%nat 5%nat 10
           Stub.point eq_refl).
Defined.

Example getEnvelope_of_the_orphan :
  GeometryRest.getEnvelope 10%nat StubRest.store =
    (Abrupt (TypeError "null"), StubRest.store).
Proof. reflexivity. Qed.

(** X4 on the rectangle and the point (5,5). *)
Lemma disjoint_within_coveredBy_on_the_rectangle :
  geometries StubRest.store !! 2%nat = Some Stub.rectangle ∧
  geometries StubRest.store !! 0%nat = Some Stub.point ∧
  Geometry.disjoint 2%nat 0%nat StubRest.store =
    (Abrupt (ReferenceError "envelope"),
     with_cache_filled 2%nat Stub.rectangle StubRest.store) ∧
  Geometry.within 2%nat 0%nat StubRest.store =
    (Abrupt (ReferenceError "envelope"),
     with_cache_filled 0%nat Stub.point StubRest.store) ∧
  Geometry.coveredBy 2%nat 0%nat StubRest.store =
    (Abrupt (ReferenceError "envelope"),
     with_cache_filled 0%nat Stub.point StubRest.store).
Proof.
  do 2 (split; [reflexivity|]).
  exact (disjoint_within_coveredBy_raise StubRest.store 2%nat 0%nat
           Stub.rectangle Stub.point eq_refl eq_refl).
Defined.

(** X6 on the point (5,5) and the far point. *)
Lemma relate_of_two_points :
  geometries StubRest.store !! 0%nat = Some Stub.point ∧
  geometries StubRest.store !! 5%nat = Some Stub.far_point ∧
  Geometry.relate 0%nat 5%nat StubRest.store =
    if Geometry.is_GeometryCollection_class (class_of Stub.point)
       || Geometry.is_GeometryCollection_class (class_of Stub.far_point)
    then (Abrupt (Error "This method does not support GeometryCollection"),
          StubRest.store)
    else (RelateOp_relate Stub.point Stub.far_point,
          noted StubRest.store (Called_RelateOp_relate 0%nat 5%nat)).
Proof.
  do 2 (split; [reflexivity|]).
  exact (relate_guards_then_delegates StubRest.store 0%nat 5%nat
           Stub.point Stub.far_point eq_refl eq_refl).
Defined.

Example relate_of_a_multi_point_is_refused :
  Geometry.relate 7%nat 0%nat StubRest.store =
    (Abrupt (Error "This method does not support GeometryCollection"),
     StubRest.store).
Proof. reflexivity. Qed.

Example relate_with_pattern_of_two_points :
  GeometryRest.relate_with_pattern 0%nat 5%nat "FF*FF****" StubRest.store =
    (Normal (inl [-1; -1; 0; -1; -1; -1; 0; -1; 2]),
     noted StubRest.store (Called_RelateOp_relate 0%nat 5%nat)).
Proof. reflexivity. Qed.

(** X9 on the point (5,5) and the far point. *)
Lemma intersection_symDifference_of_two_points :
  geometries StubRest.store !! 0%nat = Some Stub.point ∧
  geometries StubRest.store !! 5%nat = Some Stub.far_point ∧
  object_isEmpty Stub.point = false ∧
  object_isEmpty Stub.far_point = false ∧
  Geometry.is_GeometryCollection_class (class_of Stub.point) = false ∧
  Geometry.is_GeometryCollection_class (class_of Stub.far_point) = false ∧
  Geometry.intersection 0%nat 5%nat StubRest.store =
    (map_completion (λ _, length (geometries StubRest.store))
       (SnapIfNeededOverlayOp_overlayOp Stub.point Stub.far_point INTERSECTION),
     delegated StubRest.store
       (Called_SnapIfNeededOverlayOp_overlayOp 0%nat 5%nat INTERSECTION)
       (SnapIfNeededOverlayOp_overlayOp Stub.point Stub.far_point INTERSECTION)) ∧
  Geometry.symDifference 0%nat 5%nat StubRest.store =
    (map_completion (λ _, length (geometries StubRest.store))
       (SnapIfNeededOverlayOp_overlayOp Stub.point Stub.far_point SYMDIFFERENCE),
     delegated StubRest.store
       (Called_SnapIfNeededOverlayOp_overlayOp 0%nat 5%nat SYMDIFFERENCE)
       (SnapIfNeededOverlayOp_overlayOp Stub.point Stub.far_point SYMDIFFERENCE)).
Proof.
  do 6 (split; [reflexivity|]).
  exact (intersection_symDifference_delegate StubRest.store 0%nat 5%nat
           Stub.point Stub.far_point eq_refl eq_refl eq_refl eq_refl
           eq_refl eq_refl).
Defined.

(** X10 on the collection. *)
Lemma isSimple_isValid_of_the_collection :
  geometries StubRest.store !! 3%nat = Some Stub.collection ∧
  GeometryRest.isSimple 3%nat StubRest.store =
    (if Geometry.is_GeometryCollection_class (class_of Stub.collection)
     then Abrupt (Error "This method does not support GeometryCollection")
     else IsSimpleOp_isSimple Stub.collection, StubRest.store) ∧
  GeometryRest.isValid 3%nat StubRest.store =
    (IsValidOp_isValid Stub.collection, StubRest.store).
Proof.
  split; [reflexivity|].
  exact (isSimple_guards_isValid_does_not StubRest.store 3%nat
           Stub.collection eq_refl).
Defined.

(** X12 on the point (5,5) and the rectangle. *)
Lemma compareTo_of_point_and_rectangle_both_ways :
  geometries StubRest.store !! 0%nat = Some Stub.point ∧
  geometries StubRest.store !! 2%nat = Some Stub.rectangle ∧
  Geometry.class_sort_index (class_of Stub.point) = Some 0 ∧
  Geometry.class_sort_index (class_of Stub.rectangle) = Some 5 ∧
  Geometry.compareTo 0%nat 2%nat None StubRest.store
    = (Normal (-5), StubRest.store) ∧
  Geometry.compareTo 2%nat 0%nat (Some ()) StubRest.store
    = (Normal (- -5), StubRest.store).
Proof.
  do 5 (split; [reflexivity|]).
  exact (compareTo_antisymmetric StubRest.store 0%nat 2%nat Stub.point
           Stub.rectangle None (Some ()) 0 5 (-5) StubRest.store
           eq_refl eq_refl eq_refl eq_refl eq_refl).
Defined.

(** X13 on the empty point and the empty multi-point. *)
Lemma compareTo_zero_on_empty_points :
  geometries StubRest.store !! 1%nat = Some Stub.empty_point ∧
  geometries StubRest.store !! 8%nat = Some StubRest.empty_multi_point ∧
  Geometry.class_sort_index (class_of Stub.empty_point) = Some 0 ∧
  Geometry.class_sort_index (class_of StubRest.empty_multi_point) = Some 1 ∧
  (Geometry.compareTo 1%nat 8%nat None StubRest.store
     = (Normal 0, StubRest.store) ↔
   0 = 1 ∧ object_isEmpty Stub.empty_point = true ∧
   object_isEmpty StubRest.empty_multi_point = true).
Proof.
  do 4 (split; [reflexivity|]).
  exact (compareTo_zero_iff_same_kind_and_both_empty StubRest.store 1%nat 8%nat
           Stub.empty_point StubRest.empty_multi_point None 0 1
           eq_refl eq_refl eq_refl eq_refl).
Defined.

(** X14 on the empty point, the point (5,5) and the rectangle. *)
Lemma compareTo_chain_of_three :
  geometries StubRest.store !! 1%nat = Some Stub.empty_point ∧
  geometries StubRest.store !! 0%nat = Some Stub.point ∧
  geometries StubRest.store !! 2%nat = Some Stub.rectangle ∧
  Geometry.compareTo 1%nat 0%nat None StubRest.store
    = (Normal (-1), StubRest.store) ∧
  Geometry.compareTo 0%nat 2%nat None StubRest.store
    = (Normal (-5), StubRest.store) ∧
  ∃ w, Geometry.compareTo 1%nat 2%nat None StubRest.store
         = (Normal w, StubRest.store) ∧ w < 0.
Proof.
  do 5 (split; [reflexivity|]).
  apply (compareTo_transitive StubRest.store 1%nat 0%nat 2%nat
           Stub.empty_point Stub.point Stub.rectangle None 0 0 5 (-1) (-5)
           StubRest.store StubRest.store);
    reflexivity.
Defined.

(** X15 on the bare instance of the base class. *)
Lemma compareTo_of_the_bare_instance :
  geometries StubRest.store !! 4%nat = Some Stub.bare ∧
  class_of Stub.bare = BaseGeometry ∧
  Geometry.compareTo 4%nat 0%nat None StubRest.store =
    (Abrupt (TypeError "getClassSortIndex"), StubRest.store).
Proof.
  do 2 (split; [reflexivity|]).
  exact (compareTo_of_base_instance_raises StubRest.store 4%nat 0%nat
           Stub.bare None eq_refl eq_refl).
Defined.

(** X16 on collections that start with the empty point. *)
Lemma compare_of_collections_of_empty_points :
  Forall2 (equal_at (λ x y, Geometry.compareTo x y None) StubRest.store)
    [1%nat] [1%nat] ∧
  GeometryRest.compare [1%nat] [1%nat] StubRest.store
    = (Normal 0, StubRest.store) ∧
  GeometryRest.compare ([1%nat] ++ [0%nat; 2%nat]) [1%nat] StubRest.store
    = (Normal 1, StubRest.store) ∧
  GeometryRest.compare [1%nat] ([1%nat] ++ [0%nat; 2%nat]) StubRest.store
    = (Normal (-1), StubRest.store).
Proof.
  assert (Heq : Forall2 (equal_at (λ x y, Geometry.compareTo x y None)
                           StubRest.store) [1%nat] [1%nat])
    by (repeat constructor).
  split; [exact Heq|].
  exact (compare_of_a_common_prefix_goes_by_length
           (λ x y, Geometry.compareTo x y None) StubRest.store
           [1%nat] [1%nat] 0%nat [2%nat] Heq).
Defined.

(** X17 on collections that differ at the second element, a point
    against a rectangle. *)
Lemma compare_of_collections_differing_in_kind :
  Forall2 (equal_at (λ x y, Geometry.compareTo x y None) StubRest.store)
    [1%nat] [1%nat] ∧
  Geometry.compareTo 0%nat 2%nat None StubRest.store
    = (Normal (-5), StubRest.store) ∧
  Normal (-5) ≠ Normal 0 ∧
  GeometryRest.compare ([1%nat] ++ 0%nat :: [5%nat]) ([1%nat] ++ 2%nat :: [])
    StubRest.store = (Normal (-5), StubRest.store).
Proof.
  assert (Heq : Forall2 (equal_at (λ x y, Geometry.compareTo x y None)
                           StubRest.store) [1%nat] [1%nat])
    by (repeat constructor).
  assert (Hne : Normal (-5) ≠ Normal 0) by discriminate.
  split; [exact Heq|]. split; [reflexivity|]. split; [exact Hne|].
  exact (compare_ends_at_the_first_difference
           (λ x y, Geometry.compareTo x y None) StubRest.store
           [1%nat] [1%nat] 0%nat 2%nat [5%nat] [] (Normal (-5)) StubRest.store
           Heq eq_refl Hne).
Defined.

Example compare_of_collections_holding_the_same_point_raises :
  GeometryRest.compare [1%nat; 0%nat] [1%nat; 0%nat] StubRest.store =
    (Abrupt (ReferenceError "o"), StubRest.store).
Proof. reflexivity. Qed.

(** X19 on the factory of the store. *)
Lemma constructor_for_the_factory :
  factories StubRest.store !! 0%nat = Some Stub.the_factory ∧
  let n := length (geometries StubRest.store) in
  ∃ s', GeometryRest.Geometry_constructor (Some 0%nat) StubRest.store
          = (Normal n, s') ∧
        geometries StubRest.store !! n = None ∧
        (∀ g o, geometries StubRest.store !! g = Some o →
                geometries s' !! g = Some o) ∧
        Geometry.getFactory n s' = (Normal (Some 0%nat), s') ∧
        Geometry.getSRID n s' = (Normal (factory_SRID Stub.the_factory), s') ∧
        Geometry.isEmpty n s' = (Normal true, s') ∧
        (GeometryRest.Geometry_constructor None StubRest.store).1
          = Abrupt (TypeError "null").
Proof.
  split; [reflexivity|].
  exact (constructor_then_accessors StubRest.store 0%nat Stub.the_factory
           eq_refl).
Defined.

(** X22 on the point (5,5) as receiver and the empty point. *)
Lemma symDifference_clones_the_point_for_the_empty_point :
  geometries StubRest.store !! 0%nat = Some Stub.point ∧
  geometries StubRest.store !! 1%nat = Some Stub.empty_point ∧
  object_isEmpty Stub.empty_point = true ∧
  Geometry.symDifference 0%nat 1%nat StubRest.store =
    if object_isEmpty Stub.point then Geometry.clone 1%nat StubRest.store
    else Geometry.clone 0%nat StubRest.store.
Proof.
  do 3 (split; [reflexivity|]).
  exact (symDifference_with_an_empty_operand_clones_the_other StubRest.store
           0%nat 1%nat Stub.point Stub.empty_point eq_refl eq_refl
           (or_intror eq_refl)).
Defined.

(** X23 on the collection and the point (5,5). *)
Lemma intersection_symDifference_of_the_collection :
  geometries StubRest.store !! 3%nat = Some Stub.collection ∧
  geometries StubRest.store !! 0%nat = Some Stub.point ∧
  object_isEmpty Stub.collection = false ∧
  object_isEmpty Stub.point = false ∧
  Geometry.is_GeometryCollection_class (class_of Stub.collection) = true ∧
  Geometry.intersection 3%nat 0%nat StubRest.store =
    (Abrupt (Error "This method does not support GeometryCollection"),
     StubRest.store) ∧
  Geometry.symDifference 3%nat 0%nat StubRest.store =
    (Abrupt (Error "This method does not support GeometryCollection"),
     StubRest.store).
Proof.
  do 5 (split; [reflexivity|]).
  exact (intersection_symDifference_reject_GeometryCollection StubRest.store
           3%nat 0%nat Stub.collection Stub.point eq_refl eq_refl eq_refl
           eq_refl (or_introl eq_refl)).
Defined.

(** X24 on the empty point as receiver and the point (5,5). *)
Lemma compareTo_of_empty_point_with_point :
  geometries StubRest.store !! 1%nat = Some Stub.empty_point ∧
  geometries StubRest.store !! 0%nat = Some Stub.point ∧
  Geometry.class_sort_index (class_of Stub.empty_point) = Some 0 ∧
  Geometry.class_sort_index (class_of Stub.point) = Some 0 ∧
  object_isEmpty Stub.empty_point = true ∧
  Geometry.compareTo 1%nat 0%nat None StubRest.store =
    (Normal (if Z.eqb 0 0 then
               match object_isEmpty Stub.empty_point,
                     object_isEmpty Stub.point with
               | true, true => 0
               | true, false => -1
               | _, _ => 1
               end
             else 0 - 0), StubRest.store).
Proof.
  do 5 (split; [reflexivity|]).
  exact (compareTo_orders_by_kind_then_emptiness StubRest.store 1%nat 0%nat
           Stub.empty_point Stub.point None 0 0 eq_refl eq_refl eq_refl eq_refl
           (or_intror (or_introl eq_refl))).
Defined.

End FurtherInstances.
